(** * witness-wrapper: argument assembly and binary resolution

    A shallow embedding of the two leaf components of the wrapper:

    - [assembleWitnessArgs] (src/attestation/assembleWitnessArgs.js), the
      pure function that builds the argument vector of the witness CLI;
    - the resolver of src/core/witnessDownloader.js ([checkWitnessInPath],
      [getLatestVersion], [downloadWitnessVersion], [getWitnessPath]).

    JavaScript strings are sequences of UTF-16 code units; they are modelled
    as [list N], and the few [String.prototype] methods the code uses are
    defined on that representation. *)

From Stdlib Require Import String Ascii NArith ZArith Bool Arith Lia List.
From Stdlib Require DecimalString.
Import ListNotations.

(** ** JavaScript strings *)

Definition jsstring : Type := list N.

Module JS.

(** A source literal (ASCII text): one code unit per character. *)
Definition lit (s : string) : jsstring :=
  map N_of_ascii (list_ascii_of_string s).

Fixpoint eqb (a b : jsstring) : bool :=
  match a, b with
  | [], [] => true
  | x :: a', y :: b' => N.eqb x y && eqb a' b'
  | _, _ => false
  end.

(** A string is truthy exactly when it is not empty. *)
Definition truthy (s : jsstring) : bool :=
  match s with [] => false | _ :: _ => true end.

(** [s.startsWith(p)] *)
Fixpoint startsWith (s p : jsstring) : bool :=
  match p, s with
  | [], _ => true
  | y :: p', x :: s' => N.eqb x y && startsWith s' p'
  | _ :: _, [] => false
  end.

(** [s.endsWith(p)] *)
Definition endsWith (s p : jsstring) : bool :=
  startsWith (rev s) (rev p).

(** [s.slice(n)] for a non-negative [n] *)
Definition slice (n : nat) (s : jsstring) : jsstring := skipn n s.

(** [s.includes(p)] *)
Fixpoint includes (s p : jsstring) : bool :=
  startsWith s p ||
  match s with
  | [] => false
  | _ :: s' => includes s' p
  end.

(** ECMAScript WhiteSpace and LineTerminator code points, the characters
    removed by [String.prototype.trim]. *)
Definition isWhiteSpace (c : N) : bool :=
  ((9 <=? c) && (c <=? 13) || (c =? 32) || (c =? 160) || (c =? 5760)
   || (8192 <=? c) && (c <=? 8202) || (c =? 8232) || (c =? 8233)
   || (c =? 8239) || (c =? 8287) || (c =? 12288) || (c =? 65279))%N.

Fixpoint trimStart (s : jsstring) : jsstring :=
  match s with
  | [] => []
  | c :: s' => if isWhiteSpace c then trimStart s' else s
  end.

Definition trimEnd (s : jsstring) : jsstring := rev (trimStart (rev s)).

(** [s.trim()] *)
Definition trim (s : jsstring) : jsstring := trimEnd (trimStart s).

(** Decimal rendering of a non-negative integer, as a template literal
    renders a small integral Number. *)
Definition ofN (n : N) : jsstring := lit (DecimalString.NilEmpty.string_of_uint (N.to_uint n)).

End JS.

Notation "'#' s" := (JS.lit s%string) (at level 1, s at level 0, format "'#' s").

(** ** Arrays of strings, as the tests inspect them *)

(** [arr.indexOf(t)], with [None] for the -1 of JavaScript. *)
Fixpoint indexOf (arr : list jsstring) (t : jsstring) : option nat :=
  match arr with
  | [] => None
  | x :: rest =>
      if JS.eqb x t then Some 0
      else match indexOf rest t with
           | Some i => Some (S i)
           | None => None
           end
  end.

(** [arr.filter(x => x === t).length] *)
Definition occurrences (t : jsstring) (arr : list jsstring) : nat :=
  length (filter (fun x => JS.eqb x t) arr).


(** ** ArgumentAssembler *)

(** An optional string field of the options object. *)
Inductive field : Type :=
| Absent
| Undefined
| Value (s : jsstring).

(** An element of the trailing command vector. *)
Inductive element : Type :=
| Null
| Undef
| Str (s : jsstring).

(** Modelled from the spec: the WitnessOptions value object of the data
    model (the module that builds it, src/attestation/getWitnessOptions.js,
    is not among the sources either). *)
Record WitnessOptions : Type := {
  step : field;
  outfile : field;
  attestations : option (list jsstring);
  key : field;
  enableArchivista : option bool;
  enableSigstore : option bool;
  (* passthrough flags: flag name and value, in configuration order *)
  extensions : list (jsstring * field)
}.

(** A field yields a token only when it holds a non-empty string. *)
Definition present (f : field) : option jsstring :=
  match f with
  | Value s => if JS.truthy s then Some s else None
  | Absent | Undefined => None
  end.

Definition flagToken (prefix : jsstring) (f : field) : list jsstring :=
  match present f with
  | Some s => [prefix ++ s]
  | None => []
  end.

Definition stepTokens (o : WitnessOptions) : list jsstring :=
  flagToken #"-s=" (step o).

Definition attestationTokens (o : WitnessOptions) : list jsstring :=
  match attestations o with
  | Some names => map (fun name => #"-a=" ++ name) names
  | None => []
  end.

Definition outfileTokens (o : WitnessOptions) : list jsstring :=
  flagToken #"-o=" (outfile o).

Definition keyTokens (o : WitnessOptions) : list jsstring :=
  flagToken #"--signer-file-key-path=" (key o).

Definition boolToken (name : jsstring) (b : option bool) : list jsstring :=
  match b with
  | Some true => [#"--" ++ name ++ #"=true"]
  | Some false | None => []
  end.

Definition extensionToken (e : jsstring * field) : list jsstring :=
  flagToken (#"--" ++ fst e ++ #"=") (snd e).

Definition extensionTokens (o : WitnessOptions) : list jsstring :=
  boolToken #"enable-archivista" (enableArchivista o)
  ++ boolToken #"enable-sigstore" (enableSigstore o)
  ++ flat_map extensionToken (extensions o).

(** The conditional option tokens, items 2 to 6 of the output structure. *)
Definition optionTokens (o : WitnessOptions) : list jsstring :=
  stepTokens o ++ attestationTokens o ++ outfileTokens o ++ keyTokens o
  ++ extensionTokens o.

(** [null] and [undefined] become the empty string; a string is kept. *)
Definition normalize (e : element) : jsstring :=
  match e with
  | Null | Undef => []
  | Str s => s
  end.

Definition separator : jsstring := #"--".

(** Modelled from the spec: src/attestation/assembleWitnessArgs.js is not
    among the sources (only its tests are); the definition follows the
    eight-item output structure of the ArgumentAssembler contract. *)
Definition assembleWitnessArgs (o : WitnessOptions) (trailingCommand : list element)
  : list jsstring :=
  [#"run"] ++ optionTokens o ++ [separator] ++ map normalize trailingCommand.

(** The tokens placed before the separator. *)
Definition head (o : WitnessOptions) : list jsstring := #"run" :: optionTokens o.

(** Every option token is three code units long at least. *)
Definition long (x : jsstring) : Prop := 3 <= length x.





(** ** BinaryResolver: the environment *)

(** [new Error(message)]; every value thrown by the libraries used here is
    an [Error] object, read through [error.message]. *)
Record error : Type := Error { message : jsstring }.

(** Settlement of a call that may throw (or of a promise that may reject). *)
Inductive outcome (A : Type) : Type :=
| Return (a : A)
| Throw (e : error).
Arguments Return {A} a.
Arguments Throw {A} e.

(** Result object of [exec.getExecOutput]. *)
Record ExecOutput : Type := {
  exitCode : Z;
  stdout : jsstring;
  stderr : jsstring
}.

(** Body of the release-metadata document: [tag_name] is a string, or
    missing ([undefined]). *)
Record ReleaseData : Type := { tag_name : option jsstring }.

(** Response of [fetch]: the status and the settlement of [response.json()]. *)
Record Response : Type := {
  status : N;
  json : outcome ReleaseData
}.

(** [response.ok], which the Fetch standard defines as a status in 200..299. *)
Definition ok (r : Response) : bool :=
  ((200 <=? status r) && (status r <=? 299))%N.

(** The external collaborators of the resolver: the Actions toolkit
    ([exec], [core], [tool-cache]), [fetch], and Node's [fs], [os], [path],
    [process] and [Math.random].  One value of [Env] fixes how each of them
    answers, as the mocks of the test-suite do. *)
Record Env : Type := {
  exec_getExecOutput : jsstring -> list jsstring -> outcome ExecOutput;
  fetch : jsstring -> outcome Response;
  core_getInput : jsstring -> jsstring;
  (* tc.find throws on an empty tool name or version *)
  tc_find : jsstring -> jsstring -> outcome jsstring;
  tc_downloadTool : jsstring -> outcome jsstring;
  tc_extractTar : jsstring -> jsstring -> outcome jsstring;
  tc_cacheFile : jsstring -> jsstring -> jsstring -> jsstring -> outcome jsstring;
  fs_mkdirSync : jsstring -> outcome unit;
  fs_chmodSync : jsstring -> jsstring -> outcome unit;
  fs_rm : jsstring -> outcome unit;
  process_platform : jsstring;
  os_tmpdir : jsstring;
  (* Math.random().toString(36).substring(7) *)
  random_suffix : jsstring;
  path_join : jsstring -> jsstring -> jsstring;
  path_dirname : jsstring -> jsstring
}.

(** Calls made to the collaborators, in program order. *)
Inductive event : Type :=
| ExecGetExecOutput (cmd : jsstring) (args : list jsstring)
| Fetch (url : jsstring)
| CoreGetInput (name : jsstring)
| TcFind (tool version : jsstring)
| TcDownloadTool (url : jsstring)
| FsMkdirSync (dir : jsstring)
| TcExtractTar (file dest : jsstring)
| FsChmodSync (file mode : jsstring)
| TcCacheFile (src target tool version : jsstring)
| CoreAddPath (dir : jsstring)
| FsRm (dir : jsstring)
| CoreInfo (msg : jsstring)
| CoreWarning (msg : jsstring)
| CoreDebug (msg : jsstring).

(** The part of the host the resolver changes: the directories it created
    and has not removed, and the directories added to the job's PATH, the
    one searched first at the head. *)
Record World : Type := {
  dirs : list jsstring;
  searchPath : list jsstring
}.

Definition emptyWorld : World := {| dirs := []; searchPath := [] |}.

(** ** A state, trace and exception monad

    A computation maps the world to a settlement, the new world and the
    calls it made.  A throw keeps the world and the calls made so far. *)

Definition M (A : Type) : Type := World -> outcome A * World * list event.

Definition ret {A} (a : A) : M A := fun w => (Return a, w, []).

Definition throw {A} (e : error) : M A := fun w => (Throw e, w, []).

Definition bind {A B} (m : M A) (f : A -> M B) : M B :=
  fun w =>
    match m w with
    | (Return a, w1, t1) =>
        match f a w1 with
        | (r, w2, t2) => (r, w2, t1 ++ t2)
        end
    | (Throw e, w1, t1) => (Throw e, w1, t1)
    end.

(** [try { body } catch (error) { handler }] *)
Definition tryCatch {A} (body : M A) (handler : error -> M A) : M A :=
  fun w =>
    match body w with
    | (Return a, w1, t1) => (Return a, w1, t1)
    | (Throw e, w1, t1) =>
        match handler e w1 with
        | (r, w2, t2) => (r, w2, t1 ++ t2)
        end
    end.

Notation "x <- m ;; k" := (bind m (fun x => k))
  (at level 61, m at next level, right associativity).
Notation "m ;;; k" := (bind m (fun _ => k))
  (at level 61, right associativity).

(** A call that changes nothing in the world. *)
Definition call {A} (ev : event) (r : outcome A) : M A :=
  fun w => (r, w, [ev]).

(** A call that changes the world when it succeeds. *)
Definition callUpdating {A} (ev : event) (r : outcome A) (upd : World -> World)
  : M A :=
  fun w =>
    match r with
    | Return a => (Return a, upd w, [ev])
    | Throw e => (Throw e, w, [ev])
    end.

Definition settled {A} (r : outcome A) : M A := fun w => (r, w, []).

Definition result {A} (x : outcome A * World * list event) : outcome A :=
  fst (fst x).
Definition world {A} (x : outcome A * World * list event) : World :=
  snd (fst x).
Definition calls {A} (x : outcome A * World * list event) : list event :=
  snd x.

Definition addDir (d : jsstring) (w : World) : World :=
  {| dirs := d :: dirs w; searchPath := searchPath w |}.

Definition removeDir (d : jsstring) (w : World) : World :=
  {| dirs := filter (fun x => negb (JS.eqb x d)) (dirs w);
     searchPath := searchPath w |}.

(** [core.addPath] puts the directory in front of PATH. *)
Definition addSearchPath (d : jsstring) (w : World) : World :=
  {| dirs := dirs w; searchPath := d :: searchPath w |}.

Definition dirExists (d : jsstring) (w : World) : bool :=
  existsb (fun x => JS.eqb x d) (dirs w).

(** ** BinaryResolver: src/core/witnessDownloader.js *)

Section Resolver.

Variable E : Env.

Definition core_info (msg : jsstring) : M unit := call (CoreInfo msg) (Return tt).
Definition core_warning (msg : jsstring) : M unit := call (CoreWarning msg) (Return tt).
Definition core_debug (msg : jsstring) : M unit := call (CoreDebug msg) (Return tt).

Definition core_addPath (dir : jsstring) : M unit :=
  callUpdating (CoreAddPath dir) (Return tt) (addSearchPath dir).

Definition getExecOutput (cmd : jsstring) (args : list jsstring) : M ExecOutput :=
  call (ExecGetExecOutput cmd args) (exec_getExecOutput E cmd args).

Definition getInput (name : jsstring) : M jsstring :=
  call (CoreGetInput name) (Return (core_getInput E name)).

Definition find (tool version : jsstring) : M jsstring :=
  call (TcFind tool version) (tc_find E tool version).

Definition downloadTool (url : jsstring) : M jsstring :=
  call (TcDownloadTool url) (tc_downloadTool E url).

Definition extractTar (file dest : jsstring) : M jsstring :=
  call (TcExtractTar file dest) (tc_extractTar E file dest).

Definition cacheFile (src target tool version : jsstring) : M jsstring :=
  call (TcCacheFile src target tool version) (tc_cacheFile E src target tool version).

Definition mkdirSync (dir : jsstring) : M unit :=
  callUpdating (FsMkdirSync dir) (fs_mkdirSync E dir) (addDir dir).

Definition chmodSync (file mode : jsstring) : M unit :=
  call (FsChmodSync file mode) (fs_chmodSync E file mode).

Definition rm (dir : jsstring) : M unit :=
  callUpdating (FsRm dir) (fs_rm E dir) (removeDir dir).

(** [data.tag_name.startsWith] on a missing [tag_name] (V8's wording). *)
Definition typeErrorStartsWith : error :=
  Error #"Cannot read properties of undefined (reading 'startsWith')".

Definition checkWitnessInPath : M (option jsstring) :=
  tryCatch
    (result <- getExecOutput #"which" [#"witness"] ;;
     if (exitCode result =? 0)%Z && JS.truthy (JS.trim (stdout result))
     then ret (Some (JS.trim (stdout result)))
     else ret None)
    (fun error =>
       core_debug (#"Error checking for witness in PATH: " ++ message error) ;;;
       ret None).

Definition latestReleaseUrl : jsstring :=
  #"https://api.github.com/repos/in-toto/witness/releases/latest".

Definition fallbackVersion : jsstring := #"0.10.1".

Definition getLatestVersion : M jsstring :=
  tryCatch
    (response <- call (Fetch latestReleaseUrl) (fetch E latestReleaseUrl) ;;
     (if negb (ok response)
      then throw (Error (#"GitHub API returned " ++ JS.ofN (status response)))
      else ret tt) ;;;
     data <- settled (json response) ;;
     tag <- match tag_name data with
            | Some t => ret t
            | None => throw typeErrorStartsWith
            end ;;
     let version := if JS.startsWith tag #"v" then JS.slice 1 tag else tag in
     core_info (#"Latest witness version from GitHub: " ++ version) ;;;
     ret version)
    (fun error =>
       core_warning (#"Failed to fetch latest witness version: " ++ message error) ;;;
       ret fallbackVersion).

Definition archiveFile (version : jsstring) : jsstring :=
  if JS.eqb (process_platform E) #"win32"
  then #"witness_" ++ version ++ #"_windows_amd64.tar.gz"
  else if JS.eqb (process_platform E) #"darwin"
  then #"witness_" ++ version ++ #"_darwin_amd64.tar.gz"
  else #"witness_" ++ version ++ #"_linux_amd64.tar.gz".

Definition downloadUrl (version : jsstring) : jsstring :=
  #"https://github.com/in-toto/witness/releases/download/v" ++ version
  ++ #"/" ++ archiveFile version.

Definition tempDir : jsstring :=
  path_join E (os_tmpdir E) (#"witness-extract-" ++ random_suffix E).

Definition downloadWitnessVersion (version : jsstring) : M jsstring :=
  core_info (#"Downloading witness from: " ++ downloadUrl version) ;;;
  downloadPath <-
    tryCatch
      (p <- downloadTool (downloadUrl version) ;;
       core_info ([55357; 56550]%N ++ #" Downloaded witness archive to: " ++ p) ;;;
       ret p)
      (fun error => throw (Error (#"Failed to download witness: " ++ message error))) ;;
  mkdirSync tempDir ;;;
  core_info ([55357; 56514]%N ++ #" Created temporary directory: " ++ tempDir) ;;;
  extractedDir <-
    tryCatch
      (d <- extractTar downloadPath tempDir ;;
       core_info ([55357; 56548]%N ++ #" Extracted witness to: " ++ d) ;;;
       ret d)
      (fun error => throw (Error (#"Failed to extract witness archive: " ++ message error))) ;;
  let witnessExePath := path_join E extractedDir #"witness" in
  core_info (#"Witness executable path: " ++ witnessExePath) ;;;
  tryCatch
    (chmodSync witnessExePath #"755" ;;;
     core_info ([9989]%N ++ #" Made witness executable"))
    (fun error =>
       core_warning ([9888; 65039]%N ++ #" Failed to make witness executable: "
                     ++ message error)) ;;;
  cachedPath <-
    tryCatch
      (c <- cacheFile witnessExePath #"witness" #"witness" version ;;
       core_info ([9989]%N ++ #" Cached witness at: " ++ c) ;;;
       core_addPath (path_dirname E c) ;;;
       core_info ([9989]%N ++ #" Added witness to PATH: " ++ path_dirname E c) ;;;
       ret c)
      (fun error => throw (Error (#"Failed to cache witness: " ++ message error))) ;;
  tryCatch
    (rm tempDir ;;;
     core_info ([55358; 56825]%N ++ #" Cleaned up temporary directory"))
    (fun error =>
       core_warning ([9888; 65039]%N ++ #" Failed to clean up temporary directory: "
                     ++ message error)) ;;;
  ret (if JS.endsWith cachedPath #"witness"
       then cachedPath
       else path_join E cachedPath #"witness").

(** Steps 2 to 4 of [getWitnessPath]: the statements after the early
    return of step 1. *)
Definition resolveVersion : M jsstring :=
  inputVersion <- getInput #"witness_version" ;;
  version <- (if JS.truthy inputVersion then ret inputVersion else getLatestVersion) ;;
  core_info (#"Using witness version: " ++ version) ;;;
  cachedPath <- find #"witness" version ;;
  if JS.truthy cachedPath
  then
    let witnessExePath := path_join E cachedPath #"witness" in
    core_info ([9989]%N ++ #" Found cached witness at: " ++ witnessExePath) ;;;
    core_addPath cachedPath ;;;
    ret witnessExePath
  else
    core_info ([11015; 65039]%N ++ #" Witness version " ++ version
               ++ #" not found in cache, downloading now...") ;;;
    downloadWitnessVersion version.

Definition getWitnessPath : M jsstring :=
  pathWitness <- checkWitnessInPath ;;
  match pathWitness with
  | Some p =>
      if JS.truthy p
      then
        core_info ([9989]%N ++ #" Found witness in PATH: " ++ p) ;;;
        ret p
      else resolveVersion
  | None => resolveVersion
  end.

(** DEPRECATED alias kept for backward compatibility. *)
Definition downloadAndSetupWitness : M jsstring := getWitnessPath.

End Resolver.

(** The version of steps 2 to 4, given what the metadata fetch answers. *)
Definition versionToUse (E : Env) (latest : jsstring) : jsstring :=
  if JS.truthy (core_getInput E #"witness_version")
  then core_getInput E #"witness_version"
  else latest.

(** The calls of step 2 and the lookup of step 3. *)
Definition selectionCalls (E : Env) (latest : jsstring) (evs : list event) : list event :=
  CoreGetInput #"witness_version"
  :: (if JS.truthy (core_getInput E #"witness_version") then [] else evs)
  ++ [CoreInfo (#"Using witness version: " ++ versionToUse E latest);
      TcFind #"witness" (versionToUse E latest)].

(** ** Classifying the calls *)

(** The probe of step 1. *)
Definition whichCall : event := ExecGetExecOutput #"which" [#"witness"].

Definition isCacheLookup (ev : event) : bool :=
  match ev with TcFind _ _ => true | _ => false end.

Definition isFetch (ev : event) : bool :=
  match ev with Fetch _ => true | _ => false end.

Definition isDownload (ev : event) : bool :=
  match ev with TcDownloadTool _ => true | _ => false end.

Definition isRemoval (ev : event) : bool :=
  match ev with FsRm _ => true | _ => false end.

(** The arguments of a call that name a version: the version itself or a
    URL built from it. *)
Definition versionArguments (ev : event) : list jsstring :=
  match ev with
  | Fetch url => [url]
  | TcFind _ version => [version]
  | TcDownloadTool url => [url]
  | TcCacheFile _ _ _ version => [version]
  | _ => []
  end.

(** A call that is neither a cache lookup, a metadata fetch nor a download,
    and that names no version. *)
Definition plain (ev : event) : Prop :=
  isCacheLookup ev = false /\ isFetch ev = false /\ isDownload ev = false
  /\ versionArguments ev = [].

(** A log line of [core.info] or [core.warning]. *)
Definition logLine (ev : event) : Prop :=
  (exists m, ev = CoreInfo m) \/ (exists m, ev = CoreWarning m).

(** The version default that action.yml used to carry (see the test
    'should NOT default to 0.8.1'). *)
Definition legacyDefaultVersion : jsstring := #"0.8.1".

Definition mentions (needle : jsstring) (ev : event) : bool :=
  existsb (fun s => JS.includes s needle) (versionArguments ev).

(** ** Concrete environments, after the mocks of the test-suite *)

Definition posixJoin (a b : jsstring) : jsstring := a ++ #"/" ++ b.

Fixpoint dropLastSegment (s : jsstring) : jsstring :=
  match s with
  | [] => []
  | c :: s' =>
      if existsb (N.eqb 47) s' then c :: dropLastSegment s' else []
  end.

Definition whichMissing : outcome ExecOutput :=
  Return {| exitCode := 1; stdout := []; stderr := [] |}.

Definition whichFound : outcome ExecOutput :=
  Return {| exitCode := 0; stdout := #"/usr/local/bin/witness" ++ [10%N]; stderr := [] |}.

Definition latestIs (tag : jsstring) : outcome Response :=
  Return {| status := 200; json := Return {| tag_name := Some tag |} |}.

(** The mocked collaborators: everything succeeds unless overridden. *)
Definition mockEnv (which : outcome ExecOutput) (latest : outcome Response)
    (input cached : jsstring)
    (mkdir : outcome unit) (extract : outcome jsstring)
    (chmod : outcome unit) (cache : outcome jsstring) : Env :=
  {| exec_getExecOutput := fun _ _ => which;
     fetch := fun _ => latest;
     core_getInput := fun _ => input;
     tc_find := fun _ _ => Return cached;
     tc_downloadTool := fun _ => Return #"/tmp/witness.tar.gz";
     tc_extractTar := fun _ _ => extract;
     tc_cacheFile := fun _ _ _ _ => cache;
     fs_mkdirSync := fun _ => mkdir;
     fs_chmodSync := fun _ _ => chmod;
     fs_rm := fun _ => Return tt;
     process_platform := #"linux";
     os_tmpdir := #"/tmp";
     random_suffix := #"k3x9q";
     path_join := posixJoin;
     path_dirname := dropLastSegment |}.

Definition happyEnv (which : outcome ExecOutput) (input cached : jsstring) : Env :=
  mockEnv which (latestIs #"v0.10.1") input cached
    (Return tt) (Return #"/tmp/witness-extract") (Return tt)
    (Return #"/opt/hostedtoolcache/witness/0.10.1/x64").

(** The metadata endpoint cannot be reached. *)
Definition offlineEnv : Env :=
  mockEnv whichMissing (Throw (Error #"fetch failed")) [] []
    (Return tt) (Return #"/tmp/witness-extract") (Return tt)
    (Return #"/opt/hostedtoolcache/witness/0.10.1/x64").

(** The metadata endpoint answers 403 (rate limited). *)
Definition rateLimitedEnv : Env :=
  mockEnv whichMissing
    (Return {| status := 403; json := Return {| tag_name := None |} |}) [] []
    (Return tt) (Return #"/tmp/witness-extract") (Return tt)
    (Return #"/opt/hostedtoolcache/witness/0.10.1/x64").

(** [which] itself cannot be run. *)
Definition whichThrowsEnv : Env :=
  mockEnv (Throw (Error #"Command failed")) (latestIs #"v0.10.1") [] []
    (Return tt) (Return #"/tmp/witness-extract") (Return tt)
    (Return #"/opt/hostedtoolcache/witness/0.10.1/x64").

(** [which] exits 0 and prints blanks only. *)
Definition whichBlank : outcome ExecOutput :=
  Return {| exitCode := 0; stdout := [32; 10]%N; stderr := [] |}.

(** Extraction of the downloaded archive fails. *)
Definition extractFailsEnv : Env :=
  mockEnv whichMissing (latestIs #"v0.10.1") #"0.10.1" []
    (Return tt) (Throw (Error #"tar exited with code 2")) (Return tt)
    (Return #"/opt/hostedtoolcache/witness/0.10.1/x64").

(** Installing into the tool cache fails. *)
Definition cacheFailsEnv : Env :=
  mockEnv whichMissing (latestIs #"v0.10.1") #"0.10.1" []
    (Return tt) (Return #"/tmp/witness-extract") (Return tt)
    (Throw (Error #"ENOSPC: no space left on device")).

(** The temporary directory cannot be created. *)
Definition mkdirFailsEnv : Env :=
  mockEnv whichMissing (latestIs #"v0.10.1") #"0.10.1" []
    (Throw (Error #"ENOSPC: no space left on device, mkdir"))
    (Return #"/tmp/witness-extract") (Return tt)
    (Return #"/opt/hostedtoolcache/witness/0.10.1/x64").

(** The executable bit cannot be set. *)
Definition chmodFailsEnv : Env :=
  mockEnv whichMissing (latestIs #"v0.10.1") #"0.10.1" []
    (Return tt) (Return #"/tmp/witness-extract")
    (Throw (Error #"EPERM: operation not permitted, chmod"))
    (Return #"/opt/hostedtoolcache/witness/0.10.1/x64").

(** Options and trailing commands of the test-suite. *)
Definition noOptions : WitnessOptions :=
  {| step := Absent; outfile := Absent; attestations := None; key := Absent;
     enableArchivista := None; enableSigstore := None; extensions := [] |}.

Definition buildOptions : WitnessOptions :=
  {| step := Value #"build"; outfile := Value #"attestation.json";
     attestations := None; key := Absent;
     enableArchivista := None; enableSigstore := None; extensions := [] |}.


Definition makeCommand : list element :=
  [Str #"/bin/sh"; Str #"-c"; Str #"make build docker_tag=v1.2.3"].


(** A wrapped command that uses [--] itself. *)
Definition gitCommand : list element :=
  [Str #"git"; Str #"checkout"; Str #"--"; Str #"README.md"].





(** ** Further definitions: shell invocation, overrides, classifiers *)

(** The shell invocation of the command-parsing tests (FIXED
    implementation): the whole command is the third element. *)
Definition parseCommandForShell (command : jsstring) : list jsstring :=
  [#"/bin/sh"; #"-c"; command].

(** A string made of white space only. *)
Definition blank (s : jsstring) : Prop := forallb JS.isWhiteSpace s = true.

(** A non-empty string that neither starts nor ends with white space. *)
Definition trimmed (s : jsstring) : Prop :=
  s <> []
  /\ JS.isWhiteSpace (hd 0%N s) = false
  /\ JS.isWhiteSpace (last s 0%N) = false.

(** The environment [E] with another answer of [which]. *)
Definition withWhich (E : Env) (r : outcome ExecOutput) : Env :=
  {| exec_getExecOutput := fun _ _ => r;
     fetch := fetch E;
     core_getInput := core_getInput E;
     tc_find := tc_find E;
     tc_downloadTool := tc_downloadTool E;
     tc_extractTar := tc_extractTar E;
     tc_cacheFile := tc_cacheFile E;
     fs_mkdirSync := fs_mkdirSync E;
     fs_chmodSync := fs_chmodSync E;
     fs_rm := fs_rm E;
     process_platform := process_platform E;
     os_tmpdir := os_tmpdir E;
     random_suffix := random_suffix E;
     path_join := path_join E;
     path_dirname := path_dirname E |}.

(** The environment [E] with other answers of [tc.downloadTool] and of
    [fs.promises.rm]. *)
Definition withDownloadAndRm (E : Env) (dl : outcome jsstring) (removal : outcome unit)
  : Env :=
  {| exec_getExecOutput := exec_getExecOutput E;
     fetch := fetch E;
     core_getInput := core_getInput E;
     tc_find := tc_find E;
     tc_downloadTool := fun _ => dl;
     tc_extractTar := tc_extractTar E;
     tc_cacheFile := tc_cacheFile E;
     fs_mkdirSync := fs_mkdirSync E;
     fs_chmodSync := fs_chmodSync E;
     fs_rm := fun _ => removal;
     process_platform := process_platform E;
     os_tmpdir := os_tmpdir E;
     random_suffix := random_suffix E;
     path_join := path_join E;
     path_dirname := path_dirname E |}.

(** The download is refused. *)
Definition downloadFailsEnv : Env :=
  withDownloadAndRm (happyEnv whichMissing #"0.10.1" [])
    (Throw (Error #"Unexpected HTTP response: 404")) (Return tt).

(** The temporary directory cannot be removed. *)
Definition rmFailsEnv : Env :=
  withDownloadAndRm (happyEnv whichMissing #"0.10.1" [])
    (Return #"/tmp/witness.tar.gz") (Throw (Error #"EBUSY: resource busy or locked")).

(** The metadata endpoint answers 200 with a body that is not JSON. *)
Definition badJsonEnv : Env :=
  mockEnv whichMissing
    (Return {| status := 200;
               json := Throw (Error #"Unexpected token < in JSON at position 0") |})
    [] []
    (Return tt) (Return #"/tmp/witness-extract") (Return tt)
    (Return #"/opt/hostedtoolcache/witness/0.10.1/x64").

(** The metadata endpoint answers 200 with a document without [tag_name]. *)
Definition noTagEnv : Env :=
  mockEnv whichMissing
    (Return {| status := 200; json := Return {| tag_name := None |} |}) [] []
    (Return tt) (Return #"/tmp/witness-extract") (Return tt)
    (Return #"/opt/hostedtoolcache/witness/0.10.1/x64").

(** The latest release is tagged [v]: the version is the empty string,
    which [tc.find] refuses ('versionSpec parameter is required'). *)
Definition emptyTagEnv : Env :=
  {| exec_getExecOutput := fun _ _ => whichMissing;
     fetch := fun _ => latestIs #"v";
     core_getInput := fun _ => [];
     tc_find := fun _ version =>
                  if JS.truthy version then Return []
                  else Throw (Error #"versionSpec parameter is required");
     tc_downloadTool := fun _ => Return #"/tmp/witness.tar.gz";
     tc_extractTar := fun _ _ => Return #"/tmp/witness-extract";
     tc_cacheFile := fun _ _ _ _ => Return #"/opt/hostedtoolcache/witness/0.10.1/x64";
     fs_mkdirSync := fun _ => Return tt;
     fs_chmodSync := fun _ _ => Return tt;
     fs_rm := fun _ => Return tt;
     process_platform := #"linux";
     os_tmpdir := #"/tmp";
     random_suffix := #"k3x9q";
     path_join := posixJoin;
     path_dirname := dropLastSegment |}.

Definition isProbe (ev : event) : bool :=
  match ev with ExecGetExecOutput _ _ => true | _ => false end.

Definition isMkdir (ev : event) : bool :=
  match ev with FsMkdirSync _ => true | _ => false end.

Definition isAddPath (ev : event) : bool :=
  match ev with CoreAddPath _ => true | _ => false end.

(** A call that touches the file system or the tool cache. *)
Definition isInstallStep (ev : event) : bool :=
  match ev with
  | FsMkdirSync _ | TcExtractTar _ _ | FsChmodSync _ _
  | TcCacheFile _ _ _ _ | CoreAddPath _ | FsRm _ => true
  | _ => false
  end.

(** A directory call aimed at the temporary directory of [E]; any other
    kind of call qualifies. *)
Definition inTempDir (E : Env) (ev : event) : Prop :=
  match ev with
  | FsMkdirSync dir => dir = tempDir E
  | TcExtractTar _ dest => dest = tempDir E
  | FsRm dir => dir = tempDir E
  | _ => True
  end.

(** The download and the steps that follow it. *)
Definition isStage (ev : event) : bool := isDownload ev || isInstallStep ev.

(** [l] is an initial segment of [full]. *)
Definition initialSegment (l full : list event) : Prop :=
  exists rest : list event, full = l ++ rest.

(** Case analysis on the answer of the next collaborator. *)
Ltac next_answer :=
  match goal with
  | |- context [match ?o with Return _ => _ | Throw _ => _ end] =>
      destruct o as [?|?] eqn:?
  end;
  repeat match goal with u : unit |- _ => destruct u end.

(** Symbolic execution of the monad combinators and of the calls. *)
Ltac run_monad :=
  cbv beta iota zeta delta
    [bind tryCatch call callUpdating ret throw settled result world calls
     fst snd core_info core_warning core_debug core_addPath getExecOutput
     getInput find downloadTool extractTar cacheFile mkdirSync chmodSync rm].

(** * Properties *)

(** ** Strings and arrays *)

Lemma eqb_eq (a b : jsstring) : JS.eqb a b = true <-> a = b.
Proof.
  revert b; induction a as [|x a IH]; intros [|y b]; simpl; split;
    try congruence; try reflexivity.
  - intros H. apply andb_true_iff in H as [Hx Hr].
    apply N.eqb_eq in Hx. apply IH in Hr. congruence.
  - intros H. injection H as -> ->.
    rewrite N.eqb_refl. simpl. now apply IH.
Qed.

Lemma eqb_refl (a : jsstring) : JS.eqb a a = true.
Proof. now apply eqb_eq. Qed.

Lemma eqb_length (a b : jsstring) :
  length a <> length b -> JS.eqb a b = false.
Proof.
  intros H. destruct (JS.eqb a b) eqn:Heq; [|reflexivity].
  apply eqb_eq in Heq. congruence.
Qed.

Lemma startsWith_app (p s : jsstring) : JS.startsWith (p ++ s) p = true.
Proof.
  induction p as [|c p IH]; simpl.
  - now destruct s.
  - now rewrite N.eqb_refl.
Qed.

Lemma includes_prefix (s p : jsstring) :
  JS.startsWith s p = true -> JS.includes s p = true.
Proof. intros H. destruct s; cbn [JS.includes]; now rewrite H. Qed.

Lemma includes_app (a p b : jsstring) : JS.includes (a ++ p ++ b) p = true.
Proof.
  induction a as [|c a IH].
  - cbn [app]. apply includes_prefix, startsWith_app.
  - cbn [app JS.includes]. rewrite IH. apply orb_true_r.
Qed.

Lemma occurrences_app (t : jsstring) (a b : list jsstring) :
  occurrences t (a ++ b) = occurrences t a + occurrences t b.
Proof. unfold occurrences. now rewrite filter_app, length_app. Qed.




Lemma filter_none {A} (f : A -> bool) (l : list A) :
  Forall (fun x => f x = false) l -> filter f l = [].
Proof.
  induction 1 as [|x l Hx _ IH]; simpl; [reflexivity|].
  now rewrite Hx.
Qed.

Lemma indexOf_first (t : jsstring) (pre post : list jsstring) :
  Forall (fun x => JS.eqb x t = false) pre ->
  indexOf (pre ++ t :: post) t = Some (length pre).
Proof.
  induction 1 as [|x pre Hx _ IH]; simpl.
  - now rewrite eqb_refl.
  - now rewrite Hx, IH.
Qed.

Lemma skipn_after {A} (pre : list A) (x : A) (post : list A) :
  skipn (S (length pre)) (pre ++ x :: post) = post.
Proof.
  induction pre as [|y pre IH]; simpl; [reflexivity | exact IH].
Qed.

(** ** ArgumentAssembler *)

Section Assembler.

Variable o : WitnessOptions.

Lemma assemble_shape (C : list element) :
  assembleWitnessArgs o C = head o ++ separator :: map normalize C.
Proof. reflexivity. Qed.

Lemma long_not_separator (x : jsstring) : long x -> JS.eqb x separator = false.
Proof.
  intros H. apply eqb_length. unfold long in H.
  change (length separator) with 2. lia.
Qed.

Lemma flagToken_long (prefix : jsstring) (f : field) :
  long prefix -> Forall long (flagToken prefix f).
Proof.
  intros H. unfold flagToken. destruct (present f); constructor; [|constructor].
  unfold long in *. rewrite length_app. lia.
Qed.

Lemma boolToken_long (name : jsstring) (b : option bool) :
  Forall long (boolToken name b).
Proof.
  destruct b as [[|]|]; simpl; constructor; [|constructor].
  unfold long. simpl. rewrite ?length_app. simpl. lia.
Qed.

Lemma optionTokens_long : Forall long (optionTokens o).
Proof.
  unfold optionTokens, stepTokens, attestationTokens, outfileTokens,
    keyTokens, extensionTokens.
  repeat (apply Forall_app; split);
    try (apply flagToken_long; unfold long; simpl; lia);
    try apply boolToken_long.
  - destruct (attestations o) as [names|]; [|constructor].
    apply Forall_map, Forall_forall. intros n _.
    unfold long. simpl. rewrite ?length_app. simpl. lia.
  - apply Forall_flat_map, Forall_forall. intros e _.
    apply flagToken_long. unfold long. simpl. rewrite ?length_app. simpl. lia.
Qed.

Lemma head_no_separator :
  Forall (fun x => JS.eqb x separator = false) (head o).
Proof.
  unfold head. constructor; [reflexivity|].
  eapply Forall_impl; [|apply optionTokens_long].
  intros x. apply long_not_separator.
Qed.

Lemma head_separator_free : occurrences separator (head o) = 0.
Proof.
  unfold occurrences. now rewrite (filter_none _ _ head_no_separator).
Qed.

Lemma separator_index (C : list element) :
  indexOf (assembleWitnessArgs o C) separator = Some (length (head o)).
Proof. rewrite assemble_shape. apply indexOf_first, head_no_separator. Qed.











End Assembler.

Lemma occurrences_cons (t x : jsstring) (l : list jsstring) :
  occurrences t (x :: l) = (if JS.eqb x t then 1 else 0) + occurrences t l.
Proof. unfold occurrences. simpl. now destruct (JS.eqb x t). Qed.

(** C1: whatever the options and the trailing command [C] (with [null] or
    [undefined] elements or without), the part of the assembled vector that
    starts just after the separator [--] is [C] element by element and in
    order, a [null] or [undefined] element replaced by the empty string and
    any other element unchanged; it is as long as [C]. *)
Theorem C1_payload_follows_separator (o : WitnessOptions) (C : list element) :
  exists i : nat,
    indexOf (assembleWitnessArgs o C) separator = Some i
    /\ skipn (S i) (assembleWitnessArgs o C) = map normalize C
    /\ length (skipn (S i) (assembleWitnessArgs o C)) = length C
    /\ Forall2 (fun e t => t = normalize e) C (skipn (S i) (assembleWitnessArgs o C))
    /\ normalize Null = [] /\ normalize Undef = []
    /\ (forall s : jsstring, normalize (Str s) = s).
Proof.
  exists (length (head o)).
  assert (Hskip : skipn (S (length (head o))) (assembleWitnessArgs o C)
                  = map normalize C).
  { rewrite assemble_shape. apply skipn_after. }
  split; [apply separator_index|].
  rewrite Hskip. repeat split.
  - apply length_map.
  - clear Hskip. induction C as [|e C IH]; simpl; constructor; auto.
Qed.

(** C2 (as stated) fails: a trailing command that contains [--] leaves
    two [--] tokens in the output. *)
Lemma C2_separator_twice :
  occurrences separator (assembleWitnessArgs noOptions gitCommand) = 2
  /\ occurrences separator (assembleWitnessArgs noOptions gitCommand) <> 1.
Proof. split; [reflexivity | discriminate]. Qed.

(** C2 (amended): the output is [run], then the option tokens (step flag,
    one [-a=name] per attestation in sequence order, outfile flag, key
    flag, extension flags), none of which is [--], then one [--], then the
    payload; [--] occurs once more than it does in the trailing command,
    hence exactly once when the trailing command has none.  On the example
    of the specification the first element is [run], [-s=build] and
    [-o=attestation.json] are present and the tail after [--] is the
    trailing command. *)
Theorem C2_fixed_order (o : WitnessOptions) (C : list element) :
  assembleWitnessArgs o C
  = #"run" :: (stepTokens o ++ attestationTokens o ++ outfileTokens o
               ++ keyTokens o ++ extensionTokens o)
    ++ separator :: map normalize C
  /\ attestationTokens o
     = match attestations o with
       | Some names => map (fun name => #"-a=" ++ name) names
       | None => []
       end
  /\ occurrences separator (head o) = 0
  /\ indexOf (assembleWitnessArgs o C) separator = Some (length (head o))
  /\ occurrences separator (assembleWitnessArgs o C)
     = 1 + occurrences separator (map normalize C)
  /\ (occurrences separator (map normalize C) = 0 ->
      occurrences separator (assembleWitnessArgs o C) = 1)
  /\ hd_error (assembleWitnessArgs buildOptions makeCommand) = Some #"run"
  /\ In #"-s=build" (assembleWitnessArgs buildOptions makeCommand)
  /\ In #"-o=attestation.json" (assembleWitnessArgs buildOptions makeCommand)
  /\ indexOf (assembleWitnessArgs buildOptions makeCommand) separator = Some 3
  /\ skipn 4 (assembleWitnessArgs buildOptions makeCommand)
     = [#"/bin/sh"; #"-c"; #"make build docker_tag=v1.2.3"].
Proof.
  assert (Hocc : occurrences separator (assembleWitnessArgs o C)
                 = 1 + occurrences separator (map normalize C)).
  { rewrite assemble_shape, occurrences_app, head_separator_free,
      occurrences_cons. now rewrite eqb_refl. }
  split; [reflexivity|]. split; [reflexivity|].
  split; [apply head_separator_free|].
  split; [apply separator_index|].
  split; [exact Hocc|].
  split; [intros H; now rewrite Hocc, H|].
  split; [reflexivity|].
  split; [vm_compute; tauto|].
  split; [vm_compute; tauto|].
  split; reflexivity.
Qed.

Lemma C2_fixed_order_witness :
  occurrences separator (assembleWitnessArgs buildOptions makeCommand) = 1.
Proof.
  apply (C2_fixed_order buildOptions makeCommand). reflexivity.
Defined.

(** *** Flags of the [--name=value] form *)











(** ** BinaryResolver: the PATH probe *)

Section Probe.

Variable E : Env.
Variable w : World.

Lemma trim_whitespace_only (s : jsstring) :
  forallb JS.isWhiteSpace s = true -> JS.trim s = [].
Proof.
  intros H. unfold JS.trim.
  assert (Hs : JS.trimStart s = []).
  { induction s as [|c s IH]; [reflexivity|].
    simpl in *. apply andb_true_iff in H as [Hc Hr]. rewrite Hc. now apply IH. }
  now rewrite Hs.
Qed.

Lemma probe_found (out : ExecOutput) :
  exec_getExecOutput E #"which" [#"witness"] = Return out ->
  exitCode out = 0%Z ->
  JS.trim (stdout out) <> [] ->
  checkWitnessInPath E w = (Return (Some (JS.trim (stdout out))), w, [whichCall]).
Proof.
  intros Hx Hc Ht. unfold checkWitnessInPath. run_monad. rewrite Hx, Hc.
  destruct (JS.trim (stdout out)) eqn:Htrim; [contradiction | reflexivity].
Qed.

Lemma probe_absent (out : ExecOutput) :
  exec_getExecOutput E #"which" [#"witness"] = Return out ->
  exitCode out <> 0%Z \/ JS.trim (stdout out) = [] ->
  checkWitnessInPath E w = (Return None, w, [whichCall]).
Proof.
  intros Hx H. unfold checkWitnessInPath. run_monad. rewrite Hx.
  destruct H as [H | H].
  - apply Z.eqb_neq in H. rewrite H. reflexivity.
  - rewrite H. cbn [JS.truthy]. rewrite andb_false_r. reflexivity.
Qed.

Lemma probe_error (e : error) :
  exec_getExecOutput E #"which" [#"witness"] = Throw e ->
  checkWitnessInPath E w
  = (Return None, w,
     [whichCall; CoreDebug (#"Error checking for witness in PATH: " ++ message e)]).
Proof.
  intros Hx. unfold checkWitnessInPath. run_monad. now rewrite Hx.
Qed.

(** The probe never throws, changes nothing, and calls only [which] (and
    [core.debug]). *)
Lemma probe_total :
  exists (r : option jsstring) (evs : list event),
    checkWitnessInPath E w = (Return r, w, evs)
    /\ (forall s, r = Some s -> s <> [])
    /\ Forall plain evs.
Proof.
  destruct (exec_getExecOutput E #"which" [#"witness"]) as [out|e] eqn:Hx.
  - destruct (Z.eq_dec (exitCode out) 0) as [Hc|Hc];
      [destruct (JS.trim (stdout out)) as [|c t] eqn:Ht|].
    + eexists _, _. split; [apply (probe_absent out Hx); now right|].
      split; [discriminate | repeat constructor].
    + eexists _, _. split.
      * apply (probe_found out Hx Hc). rewrite Ht. discriminate.
      * split; [intros s [= <-]; rewrite Ht; discriminate | repeat constructor].
    + eexists _, _. split; [apply (probe_absent out Hx); now left|].
      split; [discriminate | repeat constructor].
  - eexists _, _. split; [apply probe_error; exact Hx|].
    split; [discriminate | repeat constructor].
Qed.

End Probe.

(** C8: [checkWitnessInPath] never throws.  It returns the trimmed output
    of [which witness] when the exit code is 0 and the trimmed output is
    not empty, and [null] in every other case: a non-zero exit code, an
    empty or whitespace-only output, or a thrown error. *)
Theorem C8_probe_is_best_effort (E : Env) (w : World) :
  (exists r : option jsstring, result (checkWitnessInPath E w) = Return r)
  /\ world (checkWitnessInPath E w) = w
  /\ (forall out, exec_getExecOutput E #"which" [#"witness"] = Return out ->
        exitCode out = 0%Z -> JS.trim (stdout out) <> [] ->
        result (checkWitnessInPath E w) = Return (Some (JS.trim (stdout out))))
  /\ (forall out, exec_getExecOutput E #"which" [#"witness"] = Return out ->
        exitCode out <> 0%Z ->
        result (checkWitnessInPath E w) = Return None)
  /\ (forall out, exec_getExecOutput E #"which" [#"witness"] = Return out ->
        stdout out = [] \/ forallb JS.isWhiteSpace (stdout out) = true ->
        result (checkWitnessInPath E w) = Return None)
  /\ (forall e, exec_getExecOutput E #"which" [#"witness"] = Throw e ->
        result (checkWitnessInPath E w) = Return None).
Proof.
  split.
  { destruct (probe_total E w) as (r & evs & Hrun & _). exists r. now rewrite Hrun. }
  split.
  { destruct (probe_total E w) as (r & evs & Hrun & _). now rewrite Hrun. }
  split.
  { intros out Hx Hc Ht. now rewrite (probe_found E w out Hx Hc Ht). }
  split.
  { intros out Hx Hc. rewrite (probe_absent E w out Hx); [reflexivity | now left]. }
  split.
  { intros out Hx Hs. rewrite (probe_absent E w out Hx); [reflexivity|].
    right. destruct Hs as [-> | Hs]; [reflexivity | now apply trim_whitespace_only]. }
  intros e Hx. now rewrite (probe_error E w e Hx).
Qed.

Lemma C8_probe_is_best_effort_witness :
  result (checkWitnessInPath (happyEnv whichFound [] []) emptyWorld)
    = Return (Some #"/usr/local/bin/witness")
  /\ result (checkWitnessInPath (happyEnv whichMissing [] []) emptyWorld) = Return None
  /\ result (checkWitnessInPath (happyEnv whichBlank [] []) emptyWorld) = Return None
  /\ result (checkWitnessInPath whichThrowsEnv emptyWorld) = Return None.
Proof.
  destruct (C8_probe_is_best_effort (happyEnv whichFound [] []) emptyWorld)
    as (_ & _ & Hfound & _).
  destruct (C8_probe_is_best_effort (happyEnv whichMissing [] []) emptyWorld)
    as (_ & _ & _ & Hexit & _).
  destruct (C8_probe_is_best_effort (happyEnv whichBlank [] []) emptyWorld)
    as (_ & _ & _ & _ & Hblank & _).
  destruct (C8_probe_is_best_effort whichThrowsEnv emptyWorld)
    as (_ & _ & _ & _ & _ & Hthrow).
  split; [apply (Hfound _ eq_refl); [reflexivity | discriminate]|].
  split; [apply (Hexit _ eq_refl); discriminate|].
  split; [apply (Hblank _ eq_refl); right; reflexivity|].
  apply (Hthrow _ eq_refl).
Defined.

(** ** BinaryResolver: the latest version *)

Section Latest.

Variable E : Env.
Variable w : World.

Lemma latest_tagged (resp : Response) (tag : jsstring) :
  fetch E latestReleaseUrl = Return resp ->
  ok resp = true ->
  json resp = Return {| tag_name := Some tag |} ->
  getLatestVersion E w
  = (Return (if JS.startsWith tag #"v" then JS.slice 1 tag else tag), w,
     [Fetch latestReleaseUrl;
      CoreInfo (#"Latest witness version from GitHub: "
                ++ (if JS.startsWith tag #"v" then JS.slice 1 tag else tag))]).
Proof.
  intros Hf Hok Hj. unfold getLatestVersion. run_monad.
  rewrite Hf, Hok. cbn [negb]. rewrite Hj. reflexivity.
Qed.

Lemma latest_unreachable (e : error) :
  fetch E latestReleaseUrl = Throw e ->
  getLatestVersion E w
  = (Return fallbackVersion, w,
     [Fetch latestReleaseUrl;
      CoreWarning (#"Failed to fetch latest witness version: " ++ message e)]).
Proof. intros Hf. unfold getLatestVersion. run_monad. now rewrite Hf. Qed.

Lemma latest_refused (resp : Response) :
  fetch E latestReleaseUrl = Return resp ->
  ok resp = false ->
  getLatestVersion E w
  = (Return fallbackVersion, w,
     [Fetch latestReleaseUrl;
      CoreWarning (#"Failed to fetch latest witness version: "
                   ++ #"GitHub API returned " ++ JS.ofN (status resp))]).
Proof.
  intros Hf Hok. unfold getLatestVersion. run_monad. now rewrite Hf, Hok.
Qed.

(** Whatever the endpoint answers, a version comes back, the world is
    unchanged and the only calls are the fetch and one log line. *)
Lemma latest_total :
  exists (v : jsstring) (ev : event),
    getLatestVersion E w = (Return v, w, [Fetch latestReleaseUrl; ev])
    /\ ((exists m, ev = CoreInfo m) \/ (exists m, ev = CoreWarning m)).
Proof.
  destruct (fetch E latestReleaseUrl) as [resp|e] eqn:Hf.
  - destruct (ok resp) eqn:Hok.
    + destruct (json resp) as [[[tag|]]|e] eqn:Hj.
      * eexists _, _. split; [apply (latest_tagged resp tag Hf Hok Hj)|].
        left. eexists. reflexivity.
      * eexists _, _. split.
        { unfold getLatestVersion. run_monad. rewrite Hf, Hok. cbn [negb].
          rewrite Hj. reflexivity. }
        right. eexists. reflexivity.
      * eexists _, _. split.
        { unfold getLatestVersion. run_monad. rewrite Hf, Hok. cbn [negb].
          rewrite Hj. reflexivity. }
        right. eexists. reflexivity.
    + eexists _, _. split; [apply (latest_refused resp Hf Hok)|].
      right. eexists. reflexivity.
  - eexists _, _. split; [apply latest_unreachable; exact Hf|].
    right. eexists. reflexivity.
Qed.

End Latest.

(** C7: [getLatestVersion] never throws.  When the metadata fetch succeeds
    it returns the release tag, without its leading [v] when it has one and
    unchanged otherwise; on a network error or a non-2xx response it
    returns the hardcoded version ["0.10.1"]. *)
Theorem C7_latest_version_falls_back (E : Env) (w : World) :
  (exists v : jsstring, result (getLatestVersion E w) = Return v)
  /\ world (getLatestVersion E w) = w
  /\ (forall resp t, fetch E latestReleaseUrl = Return resp -> ok resp = true ->
        json resp = Return {| tag_name := Some (#"v" ++ t) |} ->
        result (getLatestVersion E w) = Return t)
  /\ (forall resp tag, fetch E latestReleaseUrl = Return resp -> ok resp = true ->
        json resp = Return {| tag_name := Some tag |} ->
        JS.startsWith tag #"v" = false ->
        result (getLatestVersion E w) = Return tag)
  /\ (forall e, fetch E latestReleaseUrl = Throw e ->
        result (getLatestVersion E w) = Return #"0.10.1")
  /\ (forall resp, fetch E latestReleaseUrl = Return resp ->
        (status resp < 200 \/ 299 < status resp)%N ->
        result (getLatestVersion E w) = Return #"0.10.1").
Proof.
  split.
  { destruct (latest_total E w) as (v & ev & Hrun & _). exists v. now rewrite Hrun. }
  split.
  { destruct (latest_total E w) as (v & ev & Hrun & _). now rewrite Hrun. }
  split.
  { intros resp t Hf Hok Hj.
    rewrite (latest_tagged E w resp _ Hf Hok Hj), startsWith_app. reflexivity. }
  split.
  { intros resp tag Hf Hok Hj Hv. rewrite (latest_tagged E w resp _ Hf Hok Hj).
    now rewrite Hv. }
  split.
  { intros e Hf. now rewrite (latest_unreachable E w e Hf). }
  intros resp Hf Hs. rewrite (latest_refused E w resp Hf); [reflexivity|].
  unfold ok. apply andb_false_iff. destruct Hs as [Hs | Hs].
  - left. now apply N.leb_gt.
  - right. now apply N.leb_gt.
Qed.

Lemma C7_latest_version_falls_back_witness :
  result (getLatestVersion (happyEnv whichMissing [] []) emptyWorld) = Return #"0.10.1"
  /\ result (getLatestVersion
               (mockEnv whichMissing (latestIs #"0.10.1") [] [] (Return tt)
                  (Return []) (Return tt) (Return [])) emptyWorld)
     = Return #"0.10.1"
  /\ result (getLatestVersion offlineEnv emptyWorld) = Return #"0.10.1"
  /\ result (getLatestVersion rateLimitedEnv emptyWorld) = Return #"0.10.1".
Proof.
  destruct (C7_latest_version_falls_back (happyEnv whichMissing [] []) emptyWorld)
    as (_ & _ & Hstrip & _).
  destruct (C7_latest_version_falls_back
              (mockEnv whichMissing (latestIs #"0.10.1") [] [] (Return tt)
                 (Return []) (Return tt) (Return [])) emptyWorld)
    as (_ & _ & _ & Hkeep & _).
  destruct (C7_latest_version_falls_back offlineEnv emptyWorld)
    as (_ & _ & _ & _ & Hnet & _).
  destruct (C7_latest_version_falls_back rateLimitedEnv emptyWorld)
    as (_ & _ & _ & _ & _ & Hstatus).
  split; [apply (Hstrip _ #"0.10.1" eq_refl); reflexivity|].
  split; [apply (Hkeep _ #"0.10.1" eq_refl); reflexivity|].
  split; [apply (Hnet _ eq_refl)|].
  apply (Hstatus _ eq_refl). right. reflexivity.
Defined.

(** ** BinaryResolver: download and install *)

Section Download.

Variable E : Env.
Variable w : World.
Variable version : jsstring.

(** Every run downloads once, from the URL of the requested version, and
    neither looks into the cache nor fetches metadata. *)
Lemma download_calls :
  filter isDownload (calls (downloadWitnessVersion E version w))
  = [TcDownloadTool (downloadUrl E version)]
  /\ filter isCacheLookup (calls (downloadWitnessVersion E version w)) = []
  /\ filter isFetch (calls (downloadWitnessVersion E version w)) = []
  /\ Forall (fun ev => Forall (fun s => s = version \/ s = downloadUrl E version)
                         (versionArguments ev))
       (calls (downloadWitnessVersion E version w)).
Proof.
  unfold downloadWitnessVersion.
  repeat (run_monad; try next_answer);
    (split; [reflexivity|]; split; [reflexivity|]; split; [reflexivity|]);
    cbn [app];
    repeat first [ apply Forall_nil | apply Forall_cons
                 | left; reflexivity | right; reflexivity
                 | progress cbn [versionArguments] ].
Qed.

Lemma dirExists_addDir (d : jsstring) (w0 : World) :
  dirExists d (addDir d w0) = true.
Proof. unfold dirExists, addDir. simpl. now rewrite eqb_refl. Qed.

(** When the extraction fails the call throws at once: the temporary
    directory made just before is neither removed nor asked to be. *)
Lemma extract_failure_skips_cleanup (p : jsstring) (e : error) :
  tc_downloadTool E (downloadUrl E version) = Return p ->
  fs_mkdirSync E (tempDir E) = Return tt ->
  tc_extractTar E p (tempDir E) = Throw e ->
  result (downloadWitnessVersion E version w)
  = Throw (Error (#"Failed to extract witness archive: " ++ message e))
  /\ filter isRemoval (calls (downloadWitnessVersion E version w)) = []
  /\ dirExists (tempDir E) (world (downloadWitnessVersion E version w)) = true.
Proof.
  intros Hd Hm Hx. unfold downloadWitnessVersion. run_monad.
  rewrite Hd. run_monad. rewrite Hm. run_monad. rewrite Hx. run_monad.
  split; [reflexivity|]. split; [reflexivity | apply dirExists_addDir].
Qed.

(** The same when the installation into the tool cache fails. *)
Lemma cache_failure_skips_cleanup (p d : jsstring) (e : error) :
  tc_downloadTool E (downloadUrl E version) = Return p ->
  fs_mkdirSync E (tempDir E) = Return tt ->
  tc_extractTar E p (tempDir E) = Return d ->
  tc_cacheFile E (path_join E d #"witness") #"witness" #"witness" version = Throw e ->
  result (downloadWitnessVersion E version w)
  = Throw (Error (#"Failed to cache witness: " ++ message e))
  /\ filter isRemoval (calls (downloadWitnessVersion E version w)) = []
  /\ dirExists (tempDir E) (world (downloadWitnessVersion E version w)) = true.
Proof.
  intros Hd Hm Hx Hc. unfold downloadWitnessVersion. run_monad.
  rewrite Hd. run_monad. rewrite Hm. run_monad. rewrite Hx. run_monad.
  next_answer; run_monad; rewrite Hc; run_monad;
    (split; [reflexivity|]; split; [reflexivity | apply dirExists_addDir]).
Qed.

(** The causes of a throw, stage by stage. *)
Lemma download_throws (err : error) :
  result (downloadWitnessVersion E version w) = Throw err ->
  (exists e, tc_downloadTool E (downloadUrl E version) = Throw e
             /\ err = Error (#"Failed to download witness: " ++ message e))
  \/ (exists p, tc_downloadTool E (downloadUrl E version) = Return p
                /\ fs_mkdirSync E (tempDir E) = Throw err)
  \/ (exists p e, tc_downloadTool E (downloadUrl E version) = Return p
                  /\ tc_extractTar E p (tempDir E) = Throw e
                  /\ err = Error (#"Failed to extract witness archive: " ++ message e))
  \/ (exists p d e, tc_downloadTool E (downloadUrl E version) = Return p
                    /\ tc_extractTar E p (tempDir E) = Return d
                    /\ tc_cacheFile E (path_join E d #"witness") #"witness"
                         #"witness" version = Throw e
                    /\ err = Error (#"Failed to cache witness: " ++ message e)).
Proof.
  unfold downloadWitnessVersion.
  repeat (run_monad; try next_answer); intros H; try discriminate H;
    injection H as <-.
  - right; right; right. eauto 10.
  - right; right; right. eauto 10.
  - right; right; left. eauto 10.
  - right; left. eauto.
  - left. eauto.
Qed.

(** A chmod failure is logged and the installation goes on. *)
Lemma chmod_failure_continues (p d : jsstring) (e : error) :
  tc_downloadTool E (downloadUrl E version) = Return p ->
  fs_mkdirSync E (tempDir E) = Return tt ->
  tc_extractTar E p (tempDir E) = Return d ->
  fs_chmodSync E (path_join E d #"witness") #"755" = Throw e ->
  exists pre post : list event,
    calls (downloadWitnessVersion E version w)
    = pre
      ++ [FsChmodSync (path_join E d #"witness") #"755";
          CoreWarning ([9888; 65039]%N ++ #" Failed to make witness executable: "
                       ++ message e);
          TcCacheFile (path_join E d #"witness") #"witness" #"witness" version]
      ++ post.
Proof.
  intros Hd Hm Hx Hc. unfold downloadWitnessVersion. run_monad.
  rewrite Hd. run_monad. rewrite Hm. run_monad. rewrite Hx. run_monad.
  rewrite Hc. repeat (run_monad; try next_answer);
    eexists [_; _; _; _; _; _; _; _], _; reflexivity.
Qed.

End Download.

(** ** BinaryResolver: the resolution order *)

Lemma plain_filters (evs : list event) :
  Forall plain evs ->
  filter isCacheLookup evs = [] /\ filter isFetch evs = []
  /\ filter isDownload evs = []
  /\ forall needle, forallb (fun ev => negb (mentions needle ev)) evs = true.
Proof.
  induction 1 as [|ev evs (Hc & Hf & Hd & Hv) _ (IHc & IHf & IHd & IHm)].
  - repeat split.
  - simpl. rewrite Hc, Hf, Hd. repeat split; auto.
    intros needle. unfold mentions at 1. rewrite Hv. simpl. apply IHm.
Qed.

Lemma versions_not_mentioned (needle v url : jsstring) (evs : list event) :
  Forall (fun ev => Forall (fun s => s = v \/ s = url) (versionArguments ev)) evs ->
  JS.includes v needle = false ->
  JS.includes url needle = false ->
  forallb (fun ev => negb (mentions needle ev)) evs = true.
Proof.
  intros H Hv Hu. induction H as [|ev evs Hev _ IH]; [reflexivity|].
  simpl. rewrite IH, andb_true_r. unfold mentions.
  induction Hev as [|s l [-> | ->] _ IHl]; simpl; [reflexivity | |].
  - now rewrite Hv.
  - now rewrite Hu.
Qed.

Section Resolution.

Variable E : Env.
Variable w : World.

Lemma resolve_cached (latest : jsstring) (evs : list event) (c : jsstring) :
  getLatestVersion E w = (Return latest, w, evs) ->
  tc_find E #"witness" (versionToUse E latest) = Return c ->
  c <> [] ->
  resolveVersion E w
  = (Return (path_join E c #"witness"),
     addSearchPath c w,
     selectionCalls E latest evs
     ++ [CoreInfo ([9989]%N ++ #" Found cached witness at: "
                   ++ path_join E c #"witness");
         CoreAddPath c]).
Proof.
  intros Hl Hc Hne. unfold resolveVersion, selectionCalls, versionToUse in *.
  run_monad. destruct (JS.truthy (core_getInput E #"witness_version")).
  - run_monad. rewrite Hc. destruct c; [contradiction | reflexivity].
  - rewrite Hl. run_monad. rewrite Hc. destruct c; [contradiction|].
    cbn [JS.truthy]. cbn [app]. now rewrite <- app_assoc.
Qed.

Lemma resolve_missing (latest : jsstring) (evs : list event) :
  getLatestVersion E w = (Return latest, w, evs) ->
  tc_find E #"witness" (versionToUse E latest) = Return [] ->
  resolveVersion E w
  = (result (downloadWitnessVersion E (versionToUse E latest) w),
     world (downloadWitnessVersion E (versionToUse E latest) w),
     selectionCalls E latest evs
     ++ CoreInfo ([11015; 65039]%N ++ #" Witness version " ++ versionToUse E latest
                  ++ #" not found in cache, downloading now...")
     :: calls (downloadWitnessVersion E (versionToUse E latest) w)).
Proof.
  intros Hl Hc. unfold resolveVersion, selectionCalls, versionToUse in *.
  run_monad. destruct (JS.truthy (core_getInput E #"witness_version")).
  - run_monad. rewrite Hc. cbn [JS.truthy].
    destruct (downloadWitnessVersion E (core_getInput E #"witness_version") w)
      as [[r w'] t].
    reflexivity.
  - rewrite Hl. run_monad. rewrite Hc. cbn [JS.truthy].
    destruct (downloadWitnessVersion E latest w) as [[r w'] t].
    cbn [app]. now rewrite <- app_assoc.
Qed.

(** [tc.find] is called outside every [try]: what it throws leaves
    [getWitnessPath] as it is. *)
Lemma resolve_lookup_throws (latest : jsstring) (evs : list event) (e : error) :
  getLatestVersion E w = (Return latest, w, evs) ->
  tc_find E #"witness" (versionToUse E latest) = Throw e ->
  resolveVersion E w = (Throw e, w, selectionCalls E latest evs).
Proof.
  intros Hl Hc. unfold resolveVersion, selectionCalls, versionToUse in *.
  run_monad. destruct (JS.truthy (core_getInput E #"witness_version")).
  - run_monad. rewrite Hc. reflexivity.
  - rewrite Hl. run_monad. rewrite Hc. reflexivity.
Qed.

(** Without a PATH hit [getWitnessPath] is the probe followed by steps 2
    to 4. *)
Lemma path_absent :
  result (checkWitnessInPath E w) = Return None ->
  exists evs : list event,
    Forall plain evs
    /\ getWitnessPath E w
       = (result (resolveVersion E w), world (resolveVersion E w),
          evs ++ calls (resolveVersion E w)).
Proof.
  intros Hnone. destruct (probe_total E w) as (r & evs & Hrun & _ & Hplain).
  rewrite Hrun in Hnone. injection Hnone as ->.
  exists evs. split; [exact Hplain|].
  unfold getWitnessPath. run_monad. rewrite Hrun.
  destruct (resolveVersion E w) as [[r w'] t]. reflexivity.
Qed.

End Resolution.

(** C4: when the probe of the system PATH finds the binary ([which] exits
    0 and its trimmed output is not empty) [getWitnessPath] returns the
    probed path, and the invocation makes no cache lookup, no metadata
    fetch and no download: its only calls are the probe and one log line. *)
Theorem C4_path_hit_short_circuits (E : Env) (w : World) (out : ExecOutput) :
  exec_getExecOutput E #"which" [#"witness"] = Return out ->
  exitCode out = 0%Z ->
  JS.trim (stdout out) <> [] ->
  result (getWitnessPath E w) = Return (JS.trim (stdout out))
  /\ world (getWitnessPath E w) = w
  /\ calls (getWitnessPath E w)
     = [whichCall;
        CoreInfo ([9989]%N ++ #" Found witness in PATH: " ++ JS.trim (stdout out))]
  /\ filter isCacheLookup (calls (getWitnessPath E w)) = []
  /\ filter isFetch (calls (getWitnessPath E w)) = []
  /\ filter isDownload (calls (getWitnessPath E w)) = [].
Proof.
  intros Hx Hc Ht.
  assert (Hrun : getWitnessPath E w
                 = (Return (JS.trim (stdout out)), w,
                    [whichCall;
                     CoreInfo ([9989]%N ++ #" Found witness in PATH: "
                               ++ JS.trim (stdout out))])).
  { unfold getWitnessPath. run_monad. rewrite (probe_found E w out Hx Hc Ht).
    destruct (JS.trim (stdout out)); [contradiction | reflexivity]. }
  rewrite Hrun. repeat split.
Qed.

Lemma C4_path_hit_short_circuits_witness :
  result (getWitnessPath (happyEnv whichFound [] []) emptyWorld)
    = Return #"/usr/local/bin/witness"
  /\ filter isCacheLookup (calls (getWitnessPath (happyEnv whichFound [] []) emptyWorld)) = []
  /\ filter isFetch (calls (getWitnessPath (happyEnv whichFound [] []) emptyWorld)) = []
  /\ filter isDownload (calls (getWitnessPath (happyEnv whichFound [] []) emptyWorld)) = [].
Proof.
  destruct (C4_path_hit_short_circuits (happyEnv whichFound [] []) emptyWorld
              {| exitCode := 0; stdout := #"/usr/local/bin/witness" ++ [10%N];
                 stderr := [] |} eq_refl eq_refl)
    as (Hr & _ & _ & Hc & Hf & Hd); [discriminate|].
  repeat split; assumption.
Defined.

Section Order.

Variable E : Env.
Variable w : World.
Variable latest : jsstring.

Hypothesis no_path_hit : result (checkWitnessInPath E w) = Return None.
Hypothesis latest_answer : result (getLatestVersion E w) = Return latest.

Lemma selection_filters (ev : event) :
  logLine ev ->
  filter isCacheLookup (selectionCalls E latest [Fetch latestReleaseUrl; ev])
  = [TcFind #"witness" (versionToUse E latest)]
  /\ filter isDownload (selectionCalls E latest [Fetch latestReleaseUrl; ev]) = []
  /\ filter isFetch (selectionCalls E latest [Fetch latestReleaseUrl; ev])
     = (if JS.truthy (core_getInput E #"witness_version")
        then [] else [Fetch latestReleaseUrl]).
Proof.
  intros Hev. unfold selectionCalls.
  destruct (JS.truthy (core_getInput E #"witness_version"));
    destruct Hev as [[m ->] | [m ->]]; repeat split.
Qed.

(** The probe, the selection of the version, then what the lookup
    decides. *)
Lemma resolution_start :
  exists (pevs : list event) (ev : event),
    Forall plain pevs /\ logLine ev
    /\ getLatestVersion E w = (Return latest, w, [Fetch latestReleaseUrl; ev])
    /\ getWitnessPath E w
       = (result (resolveVersion E w), world (resolveVersion E w),
          pevs ++ calls (resolveVersion E w)).
Proof.
  destruct (path_absent E w no_path_hit) as (pevs & Hplain & Hget).
  destruct (latest_total E w) as (v & ev & Hrun & Hev).
  assert (v = latest) as ->
    by (rewrite Hrun in latest_answer; now injection latest_answer).
  exists pevs, ev. repeat split; assumption.
Qed.

Lemma resolution_cached (c : jsstring) :
  tc_find E #"witness" (versionToUse E latest) = Return c ->
  c <> [] ->
  exists (pevs : list event) (ev : event),
    Forall plain pevs /\ logLine ev
    /\ getLatestVersion E w = (Return latest, w, [Fetch latestReleaseUrl; ev])
    /\ getWitnessPath E w
       = (Return (path_join E c #"witness"),
          addSearchPath c w,
          pevs
          ++ selectionCalls E latest [Fetch latestReleaseUrl; ev]
          ++ [CoreInfo ([9989]%N ++ #" Found cached witness at: "
                        ++ path_join E c #"witness");
              CoreAddPath c]).
Proof.
  intros Hc Hne. destruct resolution_start as (pevs & ev & Hplain & Hev & Hrun & Hget).
  exists pevs, ev. repeat split; try assumption.
  rewrite Hget, (resolve_cached E w latest _ c Hrun Hc Hne). reflexivity.
Qed.

Lemma resolution_missing :
  tc_find E #"witness" (versionToUse E latest) = Return [] ->
  exists (pevs : list event) (ev : event),
    Forall plain pevs /\ logLine ev
    /\ getLatestVersion E w = (Return latest, w, [Fetch latestReleaseUrl; ev])
    /\ getWitnessPath E w
       = (result (downloadWitnessVersion E (versionToUse E latest) w),
          world (downloadWitnessVersion E (versionToUse E latest) w),
          pevs
          ++ selectionCalls E latest [Fetch latestReleaseUrl; ev]
          ++ CoreInfo ([11015; 65039]%N ++ #" Witness version "
                       ++ versionToUse E latest
                       ++ #" not found in cache, downloading now...")
          :: calls (downloadWitnessVersion E (versionToUse E latest) w)).
Proof.
  intros Hc. destruct resolution_start as (pevs & ev & Hplain & Hev & Hrun & Hget).
  exists pevs, ev. repeat split; try assumption.
  rewrite Hget, (resolve_missing E w latest _ Hrun Hc). reflexivity.
Qed.

Lemma resolution_lookup_throws (e : error) :
  tc_find E #"witness" (versionToUse E latest) = Throw e ->
  exists (pevs : list event) (ev : event),
    Forall plain pevs /\ logLine ev
    /\ getLatestVersion E w = (Return latest, w, [Fetch latestReleaseUrl; ev])
    /\ getWitnessPath E w
       = (Throw e, w,
          pevs ++ selectionCalls E latest [Fetch latestReleaseUrl; ev]).
Proof.
  intros Hc. destruct resolution_start as (pevs & ev & Hplain & Hev & Hrun & Hget).
  exists pevs, ev. repeat split; try assumption.
  rewrite Hget, (resolve_lookup_throws E w latest _ e Hrun Hc). reflexivity.
Qed.

(** One cache lookup, for the chosen version. *)
Lemma one_lookup :
  filter isCacheLookup (calls (getWitnessPath E w))
  = [TcFind #"witness" (versionToUse E latest)].
Proof.
  destruct (tc_find E #"witness" (versionToUse E latest)) as [[|c t]|e] eqn:Hc.
  - destruct (resolution_missing Hc) as (pevs & ev & Hp & Hev & _ & Hget).
    rewrite Hget. unfold calls at 1. cbn [snd].
    destruct (plain_filters pevs Hp) as (Hq & _).
    destruct (selection_filters ev Hev) as (Hs & _).
    rewrite !filter_app, Hq, Hs. cbn [filter isCacheLookup].
    destruct (download_calls E w (versionToUse E latest)) as (_ & -> & _).
    reflexivity.
  - assert (Hne : c :: t <> []) by discriminate.
    destruct (resolution_cached (c :: t) Hc Hne) as (pevs & ev & Hp & Hev & _ & Hget).
    rewrite Hget. unfold calls. cbn [snd].
    destruct (plain_filters pevs Hp) as (Hq & _).
    destruct (selection_filters ev Hev) as (Hs & _).
    rewrite !filter_app, Hq, Hs. reflexivity.
  - destruct (resolution_lookup_throws e Hc) as (pevs & ev & Hp & Hev & _ & Hget).
    rewrite Hget. unfold calls. cbn [snd].
    destruct (plain_filters pevs Hp) as (Hq & _).
    destruct (selection_filters ev Hev) as (Hs & _).
    rewrite !filter_app, Hq, Hs. reflexivity.
Qed.

(** The metadata is fetched exactly when no version was requested. *)
Lemma fetch_when_unrequested :
  filter isFetch (calls (getWitnessPath E w))
  = (if JS.truthy (core_getInput E #"witness_version")
     then [] else [Fetch latestReleaseUrl]).
Proof.
  destruct (tc_find E #"witness" (versionToUse E latest)) as [[|c t]|e] eqn:Hc.
  - destruct (resolution_missing Hc) as (pevs & ev & Hp & Hev & _ & Hget).
    rewrite Hget. unfold calls at 1. cbn [snd].
    destruct (plain_filters pevs Hp) as (_ & Hq & _).
    destruct (selection_filters ev Hev) as (_ & _ & Hs).
    rewrite !filter_app, Hq, Hs. cbn [filter isFetch].
    destruct (download_calls E w (versionToUse E latest)) as (_ & _ & -> & _).
    now rewrite app_nil_r.
  - assert (Hne : c :: t <> []) by discriminate.
    destruct (resolution_cached (c :: t) Hc Hne) as (pevs & ev & Hp & Hev & _ & Hget).
    rewrite Hget. unfold calls. cbn [snd].
    destruct (plain_filters pevs Hp) as (_ & Hq & _).
    destruct (selection_filters ev Hev) as (_ & _ & Hs).
    rewrite !filter_app, Hq, Hs. cbn [filter isFetch app]. now rewrite app_nil_r.
  - destruct (resolution_lookup_throws e Hc) as (pevs & ev & Hp & Hev & _ & Hget).
    rewrite Hget. unfold calls. cbn [snd].
    destruct (plain_filters pevs Hp) as (_ & Hq & _).
    destruct (selection_filters ev Hev) as (_ & _ & Hs).
    rewrite !filter_app, Hq, Hs. reflexivity.
Qed.

(** A cache miss is followed by one download, of the chosen version. *)
Lemma one_download :
  tc_find E #"witness" (versionToUse E latest) = Return [] ->
  filter isDownload (calls (getWitnessPath E w))
  = [TcDownloadTool (downloadUrl E (versionToUse E latest))].
Proof.
  intros Hc. destruct (resolution_missing Hc) as (pevs & ev & Hp & Hev & _ & Hget).
  rewrite Hget. unfold calls at 1. cbn [snd].
  destruct (plain_filters pevs Hp) as (_ & _ & Hq & _).
  destruct (selection_filters ev Hev) as (_ & Hs & _).
  rewrite !filter_app, Hq, Hs. cbn [filter isDownload app].
  now destruct (download_calls E w (versionToUse E latest)) as (-> & _).
Qed.

(** A cache hit is followed by no download. *)
Lemma no_download (c : jsstring) :
  tc_find E #"witness" (versionToUse E latest) = Return c ->
  c <> [] ->
  filter isDownload (calls (getWitnessPath E w)) = [].
Proof.
  intros Hc Hne.
  destruct (resolution_cached c Hc Hne) as (pevs & ev & Hp & Hev & _ & Hget).
  rewrite Hget. unfold calls. cbn [snd].
  destruct (plain_filters pevs Hp) as (_ & _ & Hq & _).
  destruct (selection_filters ev Hev) as (_ & Hs & _).
  rewrite !filter_app, Hq, Hs. reflexivity.
Qed.

End Order.

Lemma url_has_version (E : Env) (version : jsstring) :
  JS.includes (downloadUrl E version) (#"v" ++ version) = true.
Proof.
  unfold downloadUrl.
  change (#"https://github.com/in-toto/witness/releases/download/v" ++ version
          ++ #"/" ++ archiveFile E version)
    with (#"https://github.com/in-toto/witness/releases/download/"
          ++ #"v" ++ version ++ #"/" ++ archiveFile E version).
  rewrite (app_assoc #"v" version). apply includes_app.
Qed.

Lemma url_without_legacy_version (E : Env) :
  JS.includes (downloadUrl E #"0.10.1") legacyDefaultVersion = false.
Proof.
  unfold downloadUrl, archiveFile.
  destruct (JS.eqb (process_platform E) #"win32");
    [|destruct (JS.eqb (process_platform E) #"darwin")]; reflexivity.
Qed.

(** C5: without a PATH hit, the version used for the cache lookup and for
    the download is the [witness_version] input when that input is not
    empty, and the result of [getLatestVersion] otherwise.  With 0.9.0
    requested and not cached the download URL contains [v0.9.0]; with no
    version requested and a metadata answer of tag [v0.10.1] the version is
    [0.10.1], it is the fetched one (no fallback is taken) and no call names
    the legacy default 0.8.1. *)
Theorem C5_version_selection (E : Env) (w : World) (latest : jsstring) :
  result (checkWitnessInPath E w) = Return None ->
  result (getLatestVersion E w) = Return latest ->
  filter isCacheLookup (calls (getWitnessPath E w))
  = [TcFind #"witness" (versionToUse E latest)]
  /\ (tc_find E #"witness" (versionToUse E latest) = Return [] ->
      filter isDownload (calls (getWitnessPath E w))
      = [TcDownloadTool (downloadUrl E (versionToUse E latest))]
      /\ JS.includes (downloadUrl E (versionToUse E latest))
           (#"v" ++ versionToUse E latest) = true)
  /\ (core_getInput E #"witness_version" <> [] ->
      versionToUse E latest = core_getInput E #"witness_version"
      /\ filter isFetch (calls (getWitnessPath E w)) = [])
  /\ (core_getInput E #"witness_version" = [] ->
      versionToUse E latest = latest
      /\ filter isFetch (calls (getWitnessPath E w)) = [Fetch latestReleaseUrl])
  /\ (core_getInput E #"witness_version" = #"0.9.0" ->
      tc_find E #"witness" #"0.9.0" = Return [] ->
      exists url, filter isDownload (calls (getWitnessPath E w)) = [TcDownloadTool url]
                  /\ JS.includes url #"v0.9.0" = true)
  /\ (core_getInput E #"witness_version" = [] ->
      fetch E latestReleaseUrl = latestIs #"v0.10.1" ->
      versionToUse E latest = #"0.10.1"
      /\ calls (getLatestVersion E w)
         = [Fetch latestReleaseUrl;
            CoreInfo #"Latest witness version from GitHub: 0.10.1"]
      /\ forallb (fun ev => negb (mentions legacyDefaultVersion ev))
           (calls (getWitnessPath E w)) = true).
Proof.
  intros Hnone Hlatest.
  pose proof (one_lookup E w latest Hnone Hlatest) as Hlookup.
  pose proof (fetch_when_unrequested E w latest Hnone Hlatest) as Hfetch.
  pose proof (one_download E w latest Hnone Hlatest) as Hdown.
  split; [exact Hlookup|].
  split; [intros Hc; split; [now apply Hdown | apply url_has_version]|].
  split.
  { intros Hin. unfold versionToUse. rewrite Hfetch.
    destruct (core_getInput E #"witness_version"); [contradiction | now split]. }
  split.
  { intros Hin. unfold versionToUse. rewrite Hfetch, Hin. now split. }
  split.
  { intros Hin Hc.
    assert (Hv : versionToUse E latest = #"0.9.0")
      by (unfold versionToUse; now rewrite Hin).
    rewrite Hv in Hdown. exists (downloadUrl E #"0.9.0").
    split; [now apply Hdown | apply (url_has_version E #"0.9.0")]. }
  intros Hin Hf.
  pose proof (latest_tagged E w _ #"v0.10.1" Hf eq_refl eq_refl) as Hrun.
  assert (Hl : latest = #"0.10.1")
    by (rewrite Hrun in Hlatest; now injection Hlatest).
  assert (Hv : versionToUse E latest = #"0.10.1")
    by (unfold versionToUse; now rewrite Hin).
  split; [exact Hv|]. split; [now rewrite Hrun|].
  assert (Hsel : forall pevs ev rest,
             Forall plain pevs -> logLine ev ->
             forallb (fun e => negb (mentions legacyDefaultVersion e)) rest = true ->
             forallb (fun e => negb (mentions legacyDefaultVersion e))
               (pevs ++ selectionCalls E latest [Fetch latestReleaseUrl; ev] ++ rest)
             = true).
  { intros pevs ev rest Hp Hev Hrest. rewrite !forallb_app, Hrest.
    destruct (plain_filters pevs Hp) as (_ & _ & _ & ->).
    unfold selectionCalls. rewrite Hv, Hin.
    destruct Hev as [[m ->] | [m ->]]; reflexivity. }
  destruct (tc_find E #"witness" (versionToUse E latest)) as [[|c t]|e] eqn:Hc.
  - destruct (resolution_missing E w latest Hnone Hlatest Hc)
      as (pevs & ev & Hp & Hev & _ & Hget).
    rewrite Hget. unfold calls at 1. cbn [snd]. apply Hsel; try assumption.
    cbn [forallb]. rewrite Hv.
    apply (versions_not_mentioned legacyDefaultVersion #"0.10.1"
             (downloadUrl E #"0.10.1")).
    + apply download_calls.
    + reflexivity.
    + apply url_without_legacy_version.
  - assert (Hne : c :: t <> []) by discriminate.
    destruct (resolution_cached E w latest Hnone Hlatest (c :: t) Hc Hne)
      as (pevs & ev & Hp & Hev & _ & Hget).
    rewrite Hget. unfold calls. cbn [snd]. apply Hsel; try assumption.
    reflexivity.
  - destruct (resolution_lookup_throws E w latest Hnone Hlatest e Hc)
      as (pevs & ev & Hp & Hev & _ & Hget).
    rewrite Hget. unfold calls. cbn [snd].
    rewrite <- (app_nil_r (selectionCalls E latest [Fetch latestReleaseUrl; ev])).
    apply Hsel; try assumption. reflexivity.
Qed.

(** The test 'should respect witness_version input when specified'. *)
Lemma C5_version_selection_witness :
  (exists url,
      filter isDownload
        (calls (getWitnessPath (happyEnv whichMissing #"0.9.0" []) emptyWorld))
      = [TcDownloadTool url]
      /\ JS.includes url #"v0.9.0" = true)
  /\ versionToUse (happyEnv whichMissing [] []) #"0.10.1" = #"0.10.1"
  /\ forallb (fun ev => negb (mentions legacyDefaultVersion ev))
       (calls (getWitnessPath (happyEnv whichMissing [] []) emptyWorld)) = true.
Proof.
  destruct (C5_version_selection (happyEnv whichMissing #"0.9.0" []) emptyWorld
              #"0.10.1" eq_refl eq_refl) as (_ & _ & _ & _ & Hreq & _).
  destruct (C5_version_selection (happyEnv whichMissing [] []) emptyWorld
              #"0.10.1" eq_refl eq_refl) as (_ & _ & _ & _ & _ & Hlat).
  destruct (Hlat eq_refl eq_refl) as (Hv & _ & Hm).
  split; [exact (Hreq eq_refl eq_refl)|]. split; [exact Hv | exact Hm].
Defined.

(** C6: without a PATH hit and with a cache entry for the chosen version,
    nothing is downloaded, the returned path is the cache directory joined
    with [witness], and the cache directory is added to the search path. *)
Theorem C6_cache_hit (E : Env) (w : World) (latest c : jsstring) :
  result (checkWitnessInPath E w) = Return None ->
  result (getLatestVersion E w) = Return latest ->
  tc_find E #"witness" (versionToUse E latest) = Return c ->
  c <> [] ->
  filter isDownload (calls (getWitnessPath E w)) = []
  /\ result (getWitnessPath E w) = Return (path_join E c #"witness")
  /\ In (CoreAddPath c) (calls (getWitnessPath E w))
  /\ searchPath (world (getWitnessPath E w)) = c :: searchPath w
  /\ dirs (world (getWitnessPath E w)) = dirs w.
Proof.
  intros Hnone Hlatest Hc Hne.
  split; [now apply (no_download E w latest Hnone Hlatest c)|].
  destruct (resolution_cached E w latest Hnone Hlatest c Hc Hne)
    as (pevs & ev & _ & _ & _ & Hget).
  rewrite Hget. repeat split.
  unfold calls. cbn [snd]. rewrite !in_app_iff. right. right. right. now left.
Qed.

(** The test 'should use cached version if available'. *)
Lemma C6_cache_hit_witness :
  filter isDownload
    (calls (getWitnessPath
              (happyEnv whichMissing #"0.10.1" #"/opt/hostedtoolcache/witness/0.10.1/x64")
              emptyWorld)) = []
  /\ result (getWitnessPath
               (happyEnv whichMissing #"0.10.1" #"/opt/hostedtoolcache/witness/0.10.1/x64")
               emptyWorld)
     = Return #"/opt/hostedtoolcache/witness/0.10.1/x64/witness"
  /\ searchPath (world (getWitnessPath
               (happyEnv whichMissing #"0.10.1" #"/opt/hostedtoolcache/witness/0.10.1/x64")
               emptyWorld))
     = [#"/opt/hostedtoolcache/witness/0.10.1/x64"].
Proof.
  destruct (C6_cache_hit
              (happyEnv whichMissing #"0.10.1" #"/opt/hostedtoolcache/witness/0.10.1/x64")
              emptyWorld #"0.10.1" #"/opt/hostedtoolcache/witness/0.10.1/x64"
              eq_refl eq_refl eq_refl) as (Hd & Hr & _ & Hs & _);
    [discriminate|].
  split; [exact Hd|]. split; [exact Hr | exact Hs].
Defined.

(** C9 (the code departs from it): when the extraction, or the
    installation into the tool cache, fails, [downloadWitnessVersion]
    throws before its clean-up step: the temporary directory it created is
    still there when the call ends and [fs.promises.rm] was never called.
    On the successful path the directory is removed. *)
Theorem C9_temp_dir_left_behind :
  (result (downloadWitnessVersion extractFailsEnv #"0.10.1" emptyWorld)
   = Throw (Error #"Failed to extract witness archive: tar exited with code 2")
   /\ In (FsMkdirSync #"/tmp/witness-extract-k3x9q")
        (calls (downloadWitnessVersion extractFailsEnv #"0.10.1" emptyWorld))
   /\ filter isRemoval
        (calls (downloadWitnessVersion extractFailsEnv #"0.10.1" emptyWorld)) = []
   /\ dirs (world (downloadWitnessVersion extractFailsEnv #"0.10.1" emptyWorld))
      = [#"/tmp/witness-extract-k3x9q"])
  /\ (result (downloadWitnessVersion cacheFailsEnv #"0.10.1" emptyWorld)
      = Throw (Error #"Failed to cache witness: ENOSPC: no space left on device")
      /\ filter isRemoval
           (calls (downloadWitnessVersion cacheFailsEnv #"0.10.1" emptyWorld)) = []
      /\ dirs (world (downloadWitnessVersion cacheFailsEnv #"0.10.1" emptyWorld))
         = [#"/tmp/witness-extract-k3x9q"])
  /\ (result (downloadWitnessVersion (happyEnv whichMissing [] []) #"0.10.1" emptyWorld)
      = Return #"/opt/hostedtoolcache/witness/0.10.1/x64/witness"
      /\ filter isRemoval
           (calls (downloadWitnessVersion (happyEnv whichMissing [] []) #"0.10.1"
                     emptyWorld))
         = [FsRm #"/tmp/witness-extract-k3x9q"]
      /\ dirs (world (downloadWitnessVersion (happyEnv whichMissing [] []) #"0.10.1"
                        emptyWorld)) = []).
Proof.
  split; [|split].
  - split; [reflexivity|]. split; [vm_compute; tauto|]. split; reflexivity.
  - repeat split.
  - repeat split.
Qed.

(** C10 (as stated) fails: the call also throws when the temporary
    directory cannot be created, although the download succeeded and
    neither the extraction nor the cache installation failed (they were not
    reached). *)
Lemma C10_mkdir_failure_throws :
  result (downloadWitnessVersion mkdirFailsEnv #"0.10.1" emptyWorld)
  = Throw (Error #"ENOSPC: no space left on device, mkdir")
  /\ tc_downloadTool mkdirFailsEnv (downloadUrl mkdirFailsEnv #"0.10.1")
     = Return #"/tmp/witness.tar.gz"
  /\ (forall file dest, tc_extractTar mkdirFailsEnv file dest
                        = Return #"/tmp/witness-extract")
  /\ (forall src target tool version,
         tc_cacheFile mkdirFailsEnv src target tool version
         = Return #"/opt/hostedtoolcache/witness/0.10.1/x64")
  /\ calls (downloadWitnessVersion mkdirFailsEnv #"0.10.1" emptyWorld)
     = [CoreInfo (#"Downloading witness from: " ++ downloadUrl mkdirFailsEnv #"0.10.1");
        TcDownloadTool (downloadUrl mkdirFailsEnv #"0.10.1");
        CoreInfo ([55357; 56550]%N ++ #" Downloaded witness archive to: /tmp/witness.tar.gz");
        FsMkdirSync #"/tmp/witness-extract-k3x9q"].
Proof. repeat split. Qed.

(** C10 (amended): a failure to set the executable bit never aborts the
    call: the warning is logged and the cache installation is the next
    call.  The call throws only when the download, the creation of the
    temporary directory, the extraction or the cache installation fails;
    the first, third and fourth are reported under their own message, the
    second as the error of [fs.mkdirSync] itself. *)
Theorem C10_chmod_failure_is_not_fatal (E : Env) (w : World) (version : jsstring) :
  (forall p d e,
      tc_downloadTool E (downloadUrl E version) = Return p ->
      fs_mkdirSync E (tempDir E) = Return tt ->
      tc_extractTar E p (tempDir E) = Return d ->
      fs_chmodSync E (path_join E d #"witness") #"755" = Throw e ->
      exists pre post : list event,
        calls (downloadWitnessVersion E version w)
        = pre
          ++ [FsChmodSync (path_join E d #"witness") #"755";
              CoreWarning ([9888; 65039]%N ++ #" Failed to make witness executable: "
                           ++ message e);
              TcCacheFile (path_join E d #"witness") #"witness" #"witness" version]
          ++ post)
  /\ (forall err,
      result (downloadWitnessVersion E version w) = Throw err ->
      (exists e, tc_downloadTool E (downloadUrl E version) = Throw e
                 /\ err = Error (#"Failed to download witness: " ++ message e))
      \/ (exists p, tc_downloadTool E (downloadUrl E version) = Return p
                    /\ fs_mkdirSync E (tempDir E) = Throw err)
      \/ (exists p e, tc_downloadTool E (downloadUrl E version) = Return p
                      /\ tc_extractTar E p (tempDir E) = Throw e
                      /\ err = Error (#"Failed to extract witness archive: "
                                      ++ message e))
      \/ (exists p d e, tc_downloadTool E (downloadUrl E version) = Return p
                        /\ tc_extractTar E p (tempDir E) = Return d
                        /\ tc_cacheFile E (path_join E d #"witness") #"witness"
                             #"witness" version = Throw e
                        /\ err = Error (#"Failed to cache witness: " ++ message e))).
Proof.
  split.
  - intros p d e. apply chmod_failure_continues.
  - apply download_throws.
Qed.

Lemma C10_chmod_failure_is_not_fatal_witness :
  (exists pre post : list event,
      calls (downloadWitnessVersion chmodFailsEnv #"0.10.1" emptyWorld)
      = pre
        ++ [FsChmodSync #"/tmp/witness-extract/witness" #"755";
            CoreWarning ([9888; 65039]%N ++ #" Failed to make witness executable: "
                         ++ #"EPERM: operation not permitted, chmod");
            TcCacheFile #"/tmp/witness-extract/witness" #"witness" #"witness" #"0.10.1"]
        ++ post)
  /\ (exists p d e,
         tc_downloadTool cacheFailsEnv (downloadUrl cacheFailsEnv #"0.10.1") = Return p
         /\ tc_extractTar cacheFailsEnv p (tempDir cacheFailsEnv) = Return d
         /\ tc_cacheFile cacheFailsEnv (path_join cacheFailsEnv d #"witness") #"witness"
              #"witness" #"0.10.1" = Throw e
         /\ Error #"Failed to cache witness: ENOSPC: no space left on device"
            = Error (#"Failed to cache witness: " ++ message e)).
Proof.
  destruct (C10_chmod_failure_is_not_fatal chmodFailsEnv emptyWorld #"0.10.1")
    as (Hchmod & _).
  destruct (C10_chmod_failure_is_not_fatal cacheFailsEnv emptyWorld #"0.10.1")
    as (_ & Hthrow).
  split.
  - exact (Hchmod #"/tmp/witness.tar.gz" #"/tmp/witness-extract"
             (Error #"EPERM: operation not permitted, chmod")
             eq_refl eq_refl eq_refl eq_refl).
  - destruct (Hthrow _ eq_refl) as [(e & He & _) | [(p & _ & Hm) | [(p & e & _ & He & _) | H]]].
    + discriminate He.
    + discriminate Hm.
    + discriminate He.
    + exact H.
Defined.

(** * Further properties *)

(** ** [String.prototype.trim] *)

Lemma trimStart_blank (p s : jsstring) :
  blank p -> JS.trimStart (p ++ s) = JS.trimStart s.
Proof.
  unfold blank. induction p as [|c p IH]; simpl; [reflexivity|].
  intros H. apply andb_true_iff in H as [-> Hp]. now apply IH.
Qed.

Lemma trimStart_keeps (s : jsstring) :
  JS.isWhiteSpace (hd 0%N s) = false -> JS.trimStart s = s.
Proof. destruct s as [|c s]; simpl; [reflexivity|]. now intros ->. Qed.

(** [trimStart] removes a blank prefix and stops at a character that is
    not white space. *)
Lemma trimStart_split (s : jsstring) :
  exists p : jsstring,
    s = p ++ JS.trimStart s /\ blank p
    /\ (JS.trimStart s = [] \/ JS.isWhiteSpace (hd 0%N (JS.trimStart s)) = false).
Proof.
  induction s as [|c s (p & Hs & Hp & Hhd)].
  - exists []. repeat split. now left.
  - simpl. destruct (JS.isWhiteSpace c) eqn:Hc.
    + exists (c :: p). split; [simpl; now rewrite <- Hs|].
      split; [unfold blank; simpl; now rewrite Hc | exact Hhd].
    + exists []. repeat split. right. exact Hc.
Qed.

Lemma blank_rev (s : jsstring) : blank s -> blank (rev s).
Proof.
  unfold blank. rewrite !forallb_forall. intros H x Hx. apply H.
  now apply in_rev.
Qed.

Lemma blank_app (a b : jsstring) : blank a -> blank b -> blank (a ++ b).
Proof. unfold blank. intros Ha Hb. now rewrite forallb_app, Ha, Hb. Qed.

Lemma rev_last (s : jsstring) :
  s <> [] -> rev s = last s 0%N :: rev (removelast s).
Proof.
  intros H. rewrite (app_removelast_last 0%N H) at 1.
  now rewrite rev_app_distr.
Qed.

(** A trimmed string surrounded by white space is what [trim] returns. *)
Lemma trim_surrounded (pre s post : jsstring) :
  blank pre -> blank post -> trimmed s -> JS.trim (pre ++ s ++ post) = s.
Proof.
  intros Hpre Hpost (Hne & Hhd & Hlast). unfold JS.trim, JS.trimEnd.
  rewrite (trimStart_blank pre _ Hpre).
  rewrite (trimStart_keeps (s ++ post))
    by (destruct s; [contradiction | exact Hhd]).
  rewrite rev_app_distr, (trimStart_blank _ _ (blank_rev post Hpost)).
  rewrite (trimStart_keeps (rev s)); [apply rev_involutive|].
  now rewrite (rev_last s Hne).
Qed.

(** What [trim] returns is empty or trimmed, and the argument is that
    result between two blank strings. *)
Lemma trim_split (s : jsstring) :
  exists pre post : jsstring,
    s = pre ++ JS.trim s ++ post /\ blank pre /\ blank post
    /\ (JS.trim s = [] \/ trimmed (JS.trim s)).
Proof.
  destruct (trimStart_split s) as (pre & Hs & Hpre & Hu).
  unfold JS.trim, JS.trimEnd.
  destruct (trimStart_split (rev (JS.trimStart s))) as (q & Hr & Hq & Hv).
  set (u := JS.trimStart s) in *. set (v := JS.trimStart (rev u)) in *.
  assert (Hu' : u = rev v ++ rev q).
  { rewrite <- rev_app_distr, <- Hr. symmetry. apply rev_involutive. }
  exists pre, (rev q). split; [now rewrite <- Hu'|].
  split; [exact Hpre|]. split; [now apply blank_rev|].
  destruct v as [|d v'] eqn:Hveq; [now left|]. right.
  destruct Hv as [Hv | Hv]; [discriminate|]. simpl in Hv.
  assert (Hne : rev (d :: v') <> []).
  { simpl. intros H. now apply app_eq_nil in H as [_ H]. }
  split; [exact Hne|]. split.
  - destruct Hu as [Hu | Hu].
    + rewrite Hu in Hu'. symmetry in Hu'. apply app_eq_nil in Hu' as [H _].
      contradiction.
    + rewrite Hu' in Hu. destruct (rev (d :: v')); [contradiction | exact Hu].
  - simpl. now rewrite last_last.
Qed.

(** ** The PATH probe, further *)

(** X1: when [which] exits 0 and prints a path between blank strings (a
    trailing newline, say), [checkWitnessInPath] returns the path alone. *)
Theorem X1_probe_strips_whitespace
    (E : Env) (w : World) (out : ExecOutput) (pre p post : jsstring) :
  exec_getExecOutput E #"which" [#"witness"] = Return out ->
  exitCode out = 0%Z ->
  stdout out = pre ++ p ++ post ->
  blank pre -> blank post -> trimmed p ->
  result (checkWitnessInPath E w) = Return (Some p).
Proof.
  intros Hx Hc Hout Hpre Hpost Hp.
  assert (Ht : JS.trim (stdout out) = p)
    by (rewrite Hout; now apply trim_surrounded).
  rewrite (probe_found E w out Hx Hc); [now rewrite Ht|].
  rewrite Ht. apply Hp.
Qed.

Lemma X1_probe_strips_whitespace_witness :
  result (checkWitnessInPath (happyEnv whichFound [] []) emptyWorld)
  = Return (Some #"/usr/local/bin/witness").
Proof.
  apply (X1_probe_strips_whitespace (happyEnv whichFound [] []) emptyWorld
           {| exitCode := 0; stdout := #"/usr/local/bin/witness" ++ [10%N];
              stderr := [] |}
           [] #"/usr/local/bin/witness" [10%N]);
    try reflexivity.
  repeat split. discriminate.
Defined.

(** X2: a path returned by [checkWitnessInPath] is never empty and never
    starts or ends with white space; [which] exited 0 and printed that path
    between two blank strings. *)
Theorem X2_probe_result_is_trimmed (E : Env) (w : World) (s : jsstring) :
  result (checkWitnessInPath E w) = Return (Some s) ->
  trimmed s
  /\ exists (out : ExecOutput) (pre post : jsstring),
       exec_getExecOutput E #"which" [#"witness"] = Return out
       /\ exitCode out = 0%Z
       /\ stdout out = pre ++ s ++ post
       /\ blank pre /\ blank post.
Proof.
  intros Hres.
  destruct (exec_getExecOutput E #"which" [#"witness"]) as [out|e] eqn:Hx.
  - destruct (Z.eq_dec (exitCode out) 0) as [Hc|Hc].
    + destruct (JS.trim (stdout out)) as [|c t] eqn:Ht.
      * rewrite (probe_absent E w out Hx) in Hres by now right. discriminate.
      * rewrite (probe_found E w out Hx Hc) in Hres by (rewrite Ht; discriminate).
        injection Hres as <-.
        destruct (trim_split (stdout out)) as (pre & post & Hs & Hpre & Hpost & Hcl).
        split.
        { destruct Hcl as [Hcl | Hcl]; [rewrite Ht in Hcl; discriminate | exact Hcl]. }
        exists out, pre, post. repeat split; assumption.
    + rewrite (probe_absent E w out Hx) in Hres by now left. discriminate.
  - rewrite (probe_error E w e Hx) in Hres. discriminate.
Qed.

Lemma X2_probe_result_is_trimmed_witness :
  trimmed #"/usr/local/bin/witness".
Proof.
  apply (X2_probe_result_is_trimmed (happyEnv whichFound [] []) emptyWorld
           #"/usr/local/bin/witness" eq_refl).
Defined.

(** ** The latest version, further *)

(** X3: when the metadata endpoint answers 2xx but the body cannot be
    parsed, or has no [tag_name], [getLatestVersion] still returns the
    fallback ["0.10.1"]; it has made one fetch and logged one warning. *)
Theorem X3_latest_malformed_body
    (E : Env) (w : World) (resp : Response) :
  fetch E latestReleaseUrl = Return resp ->
  ok resp = true ->
  (exists e, json resp = Throw e) \/ json resp = Return {| tag_name := None |} ->
  result (getLatestVersion E w) = Return #"0.10.1"
  /\ world (getLatestVersion E w) = w
  /\ exists msg,
       calls (getLatestVersion E w)
       = [Fetch latestReleaseUrl;
          CoreWarning (#"Failed to fetch latest witness version: " ++ msg)].
Proof.
  intros Hf Hok Hbody. unfold getLatestVersion. run_monad.
  rewrite Hf, Hok. cbn [negb].
  destruct Hbody as [(e & ->) | ->]; repeat split; eexists; reflexivity.
Qed.

Lemma X3_latest_malformed_body_witness :
  result (getLatestVersion badJsonEnv emptyWorld) = Return #"0.10.1"
  /\ result (getLatestVersion noTagEnv emptyWorld) = Return #"0.10.1".
Proof.
  split.
  - apply (X3_latest_malformed_body badJsonEnv emptyWorld
             {| status := 200;
                json := Throw (Error #"Unexpected token < in JSON at position 0") |}
             eq_refl eq_refl).
    left. eexists. reflexivity.
  - apply (X3_latest_malformed_body noTagEnv emptyWorld
             {| status := 200; json := Return {| tag_name := None |} |}
             eq_refl eq_refl).
    now right.
Defined.

(** ** Download and install, further *)

Lemma dirExists_removeDir (d : jsstring) (w : World) :
  dirExists d (removeDir d w) = false.
Proof.
  unfold dirExists, removeDir. simpl.
  induction (dirs w) as [|x l IH]; simpl; [reflexivity|].
  destruct (JS.eqb x d) eqn:Hx; simpl; [exact IH | now rewrite Hx].
Qed.

(** X4: when the download fails, [downloadWitnessVersion] throws
    [Failed to download witness: <cause>] at once: no directory is created,
    nothing is extracted, cached or added to PATH, and the world is as it
    was. *)
Theorem X4_download_failure_stops_early
    (E : Env) (w : World) (version : jsstring) (e : error) :
  tc_downloadTool E (downloadUrl E version) = Throw e ->
  result (downloadWitnessVersion E version w)
  = Throw (Error (#"Failed to download witness: " ++ message e))
  /\ world (downloadWitnessVersion E version w) = w
  /\ calls (downloadWitnessVersion E version w)
     = [CoreInfo (#"Downloading witness from: " ++ downloadUrl E version);
        TcDownloadTool (downloadUrl E version)]
  /\ filter isInstallStep (calls (downloadWitnessVersion E version w)) = [].
Proof.
  intros Hd. unfold downloadWitnessVersion. run_monad. rewrite Hd.
  repeat split.
Qed.

Lemma X4_download_failure_stops_early_witness :
  result (downloadWitnessVersion downloadFailsEnv #"0.10.1" emptyWorld)
  = Throw (Error #"Failed to download witness: Unexpected HTTP response: 404")
  /\ world (downloadWitnessVersion downloadFailsEnv #"0.10.1" emptyWorld) = emptyWorld.
Proof.
  destruct (X4_download_failure_stops_early downloadFailsEnv emptyWorld #"0.10.1"
              (Error #"Unexpected HTTP response: 404") eq_refl) as (Hr & Hw & _).
  split; [exact Hr | exact Hw].
Defined.

(** X5: when download, directory creation, extraction and cache
    installation succeed, [downloadWitnessVersion] returns the cached path
    itself if it ends with [witness] and the cached path joined with
    [witness] otherwise, whatever chmod and the clean-up do; the one
    directory it adds to PATH is [path.dirname(cachedPath)]. *)
Theorem X5_install_success
    (E : Env) (w : World) (version p d c : jsstring) :
  tc_downloadTool E (downloadUrl E version) = Return p ->
  fs_mkdirSync E (tempDir E) = Return tt ->
  tc_extractTar E p (tempDir E) = Return d ->
  tc_cacheFile E (path_join E d #"witness") #"witness" #"witness" version = Return c ->
  result (downloadWitnessVersion E version w)
  = Return (if JS.endsWith c #"witness" then c else path_join E c #"witness")
  /\ searchPath (world (downloadWitnessVersion E version w))
     = path_dirname E c :: searchPath w
  /\ filter isAddPath (calls (downloadWitnessVersion E version w))
     = [CoreAddPath (path_dirname E c)].
Proof.
  intros Hd Hm Hx Hc. unfold downloadWitnessVersion. run_monad.
  rewrite Hd. run_monad. rewrite Hm. run_monad. rewrite Hx. run_monad.
  next_answer; run_monad; rewrite Hc; run_monad; next_answer; repeat split.
Qed.

Lemma X5_install_success_witness :
  result (downloadWitnessVersion (happyEnv whichMissing [] []) #"0.10.1" emptyWorld)
  = Return #"/opt/hostedtoolcache/witness/0.10.1/x64/witness"
  /\ searchPath (world (downloadWitnessVersion (happyEnv whichMissing [] [])
                          #"0.10.1" emptyWorld))
     = [#"/opt/hostedtoolcache/witness/0.10.1"].
Proof.
  destruct (X5_install_success (happyEnv whichMissing [] []) emptyWorld #"0.10.1"
              #"/tmp/witness.tar.gz" #"/tmp/witness-extract"
              #"/opt/hostedtoolcache/witness/0.10.1/x64"
              eq_refl eq_refl eq_refl eq_refl) as (Hr & Hs & _).
  split; [exact Hr | exact Hs].
Defined.

(** X6: a failure of the clean-up is not fatal: when the installation
    succeeded and [fs.promises.rm] rejects, the call still returns the
    path, its last call is the warning that carries the cause, and the
    temporary directory stays.  When [fs.promises.rm] resolves the
    directory is gone. *)
Theorem X6_cleanup_is_best_effort
    (E : Env) (w : World) (version p d c : jsstring) :
  tc_downloadTool E (downloadUrl E version) = Return p ->
  fs_mkdirSync E (tempDir E) = Return tt ->
  tc_extractTar E p (tempDir E) = Return d ->
  tc_cacheFile E (path_join E d #"witness") #"witness" #"witness" version = Return c ->
  (forall e, fs_rm E (tempDir E) = Throw e ->
     result (downloadWitnessVersion E version w)
     = Return (if JS.endsWith c #"witness" then c else path_join E c #"witness")
     /\ (exists pre,
           calls (downloadWitnessVersion E version w)
           = pre ++ [FsRm (tempDir E);
                     CoreWarning ([9888; 65039]%N
                                  ++ #" Failed to clean up temporary directory: "
                                  ++ message e)])
     /\ dirExists (tempDir E) (world (downloadWitnessVersion E version w)) = true)
  /\ (fs_rm E (tempDir E) = Return tt ->
      dirExists (tempDir E) (world (downloadWitnessVersion E version w)) = false).
Proof.
  intros Hd Hm Hx Hc. split.
  - intros e Hr. unfold downloadWitnessVersion. run_monad.
    rewrite Hd. run_monad. rewrite Hm. run_monad. rewrite Hx. run_monad.
    next_answer; run_monad; rewrite Hc; run_monad; rewrite Hr;
      (split; [reflexivity|]; split;
       [eexists [_; _; _; _; _; _; _; _; _; _; _; _; _; _]; reflexivity
       | unfold dirExists, addSearchPath, addDir; simpl; now rewrite eqb_refl]).
  - intros Hr. unfold downloadWitnessVersion. run_monad.
    rewrite Hd. run_monad. rewrite Hm. run_monad. rewrite Hx. run_monad.
    next_answer; run_monad; rewrite Hc; run_monad; rewrite Hr;
      apply dirExists_removeDir.
Qed.

Lemma X6_cleanup_is_best_effort_witness :
  result (downloadWitnessVersion rmFailsEnv #"0.10.1" emptyWorld)
  = Return #"/opt/hostedtoolcache/witness/0.10.1/x64/witness"
  /\ dirExists (tempDir rmFailsEnv)
       (world (downloadWitnessVersion rmFailsEnv #"0.10.1" emptyWorld)) = true
  /\ dirExists (tempDir (happyEnv whichMissing [] []))
       (world (downloadWitnessVersion (happyEnv whichMissing [] []) #"0.10.1"
                 emptyWorld)) = false.
Proof.
  destruct (X6_cleanup_is_best_effort rmFailsEnv emptyWorld #"0.10.1"
              #"/tmp/witness.tar.gz" #"/tmp/witness-extract"
              #"/opt/hostedtoolcache/witness/0.10.1/x64"
              eq_refl eq_refl eq_refl eq_refl) as (Hfail & _).
  destruct (X6_cleanup_is_best_effort (happyEnv whichMissing [] []) emptyWorld
              #"0.10.1" #"/tmp/witness.tar.gz" #"/tmp/witness-extract"
              #"/opt/hostedtoolcache/witness/0.10.1/x64"
              eq_refl eq_refl eq_refl eq_refl) as (_ & Hok).
  destruct (Hfail (Error #"EBUSY: resource busy or locked") eq_refl)
    as (Hr & _ & Hd).
  split; [exact Hr|]. split; [exact Hd | exact (Hok eq_refl)].
Defined.

(** ** The resolution order, further *)

Lemma path_present (E : Env) (w : World) (s : jsstring) (evs : list event) :
  checkWitnessInPath E w = (Return (Some s), w, evs) ->
  s <> [] ->
  getWitnessPath E w
  = (Return s, w, evs ++ [CoreInfo ([9989]%N ++ #" Found witness in PATH: " ++ s)]).
Proof.
  intros Hrun Hs. unfold getWitnessPath. run_monad. rewrite Hrun.
  destruct s; [contradiction | reflexivity].
Qed.

(** X7: [getWitnessPath] throws only through [tc.find] or through
    [downloadWitnessVersion]: if it throws, the probe found nothing, and
    either the cache lookup for the chosen version threw that error, or the
    cache had no entry and the download of that version threw it.  A PATH
    hit or a cache hit never throws. *)
Theorem X7_resolution_throw_causes
    (E : Env) (w : World) (err : error) :
  result (getWitnessPath E w) = Throw err ->
  result (checkWitnessInPath E w) = Return None
  /\ exists latest : jsstring,
       result (getLatestVersion E w) = Return latest
       /\ (tc_find E #"witness" (versionToUse E latest) = Throw err
           \/ (tc_find E #"witness" (versionToUse E latest) = Return []
               /\ result (downloadWitnessVersion E (versionToUse E latest) w)
                  = Throw err)).
Proof.
  intros Hthrow.
  destruct (probe_total E w) as ([s|] & evs & Hrun & Hs & _).
  - rewrite (path_present E w s evs Hrun (Hs s eq_refl)) in Hthrow. discriminate.
  - assert (Hnone : result (checkWitnessInPath E w) = Return None)
      by now rewrite Hrun.
    split; [exact Hnone|].
    destruct (latest_total E w) as (latest & ev & Hl & _).
    assert (Hlatest : result (getLatestVersion E w) = Return latest)
      by now rewrite Hl.
    exists latest. split; [exact Hlatest|].
    destruct (tc_find E #"witness" (versionToUse E latest)) as [[|c t]|e] eqn:Hc.
    + right. split; [reflexivity|].
      destruct (resolution_missing E w latest Hnone Hlatest Hc)
        as (pevs & ev' & _ & _ & _ & Hget).
      now rewrite Hget in Hthrow.
    + assert (Hne : c :: t <> []) by discriminate.
      destruct (resolution_cached E w latest Hnone Hlatest (c :: t) Hc Hne)
        as (pevs & ev' & _ & _ & _ & Hget).
      rewrite Hget in Hthrow. discriminate.
    + left.
      destruct (resolution_lookup_throws E w latest Hnone Hlatest e Hc)
        as (pevs & ev' & _ & _ & _ & Hget).
      rewrite Hget in Hthrow. now injection Hthrow as ->.
Qed.

Lemma X7_resolution_throw_causes_witness :
  (exists latest : jsstring,
      result (getLatestVersion extractFailsEnv emptyWorld) = Return latest
      /\ (tc_find extractFailsEnv #"witness" (versionToUse extractFailsEnv latest)
          = Throw (Error #"Failed to extract witness archive: tar exited with code 2")
          \/ (tc_find extractFailsEnv #"witness" (versionToUse extractFailsEnv latest)
              = Return []
              /\ result (downloadWitnessVersion extractFailsEnv
                           (versionToUse extractFailsEnv latest) emptyWorld)
                 = Throw (Error #"Failed to extract witness archive: tar exited with code 2"))))
  /\ (exists latest : jsstring,
         result (getLatestVersion emptyTagEnv emptyWorld) = Return latest
         /\ (tc_find emptyTagEnv #"witness" (versionToUse emptyTagEnv latest)
             = Throw (Error #"versionSpec parameter is required")
             \/ (tc_find emptyTagEnv #"witness" (versionToUse emptyTagEnv latest)
                 = Return []
                 /\ result (downloadWitnessVersion emptyTagEnv
                              (versionToUse emptyTagEnv latest) emptyWorld)
                    = Throw (Error #"versionSpec parameter is required")))).
Proof.
  split.
  - apply (X7_resolution_throw_causes extractFailsEnv emptyWorld
             (Error #"Failed to extract witness archive: tar exited with code 2")
             eq_refl).
  - apply (X7_resolution_throw_causes emptyTagEnv emptyWorld
             (Error #"versionSpec parameter is required") eq_refl).
Defined.

(** X8: without a PATH hit and without a cache entry for the chosen
    version, [getWitnessPath] ends as [downloadWitnessVersion] of that
    version does: same returned path or thrown error, same world. *)
Theorem X8_cache_miss_installs
    (E : Env) (w : World) (latest : jsstring) :
  result (checkWitnessInPath E w) = Return None ->
  result (getLatestVersion E w) = Return latest ->
  tc_find E #"witness" (versionToUse E latest) = Return [] ->
  result (getWitnessPath E w)
  = result (downloadWitnessVersion E (versionToUse E latest) w)
  /\ world (getWitnessPath E w)
     = world (downloadWitnessVersion E (versionToUse E latest) w).
Proof.
  intros Hnone Hlatest Hc.
  destruct (resolution_missing E w latest Hnone Hlatest Hc)
    as (pevs & ev & _ & _ & _ & Hget).
  rewrite Hget. split; reflexivity.
Qed.

(** The test 'should download latest version if not in PATH and no
    version specified'. *)
Lemma X8_cache_miss_installs_witness :
  result (getWitnessPath (happyEnv whichMissing [] []) emptyWorld)
  = Return #"/opt/hostedtoolcache/witness/0.10.1/x64/witness".
Proof.
  destruct (X8_cache_miss_installs (happyEnv whichMissing [] []) emptyWorld
              #"0.10.1" eq_refl eq_refl eq_refl) as (Hr & _).
  rewrite Hr. reflexivity.
Defined.

Lemma resolve_ignores_which (E : Env) (r : outcome ExecOutput) (w : World) :
  resolveVersion (withWhich E r) w = resolveVersion E w.
Proof. reflexivity. Qed.

(** X9: a [which] that cannot be run resolves as a [which] that finds
    nothing: with the other collaborators unchanged, [getWitnessPath]
    returns (or throws) the same and leaves the same world; the only
    difference is the debug line after the probe. *)
Theorem X9_probe_error_is_absence
    (E : Env) (w : World) (e : error) (out : ExecOutput) :
  exitCode out <> 0%Z \/ JS.trim (stdout out) = [] ->
  result (getWitnessPath (withWhich E (Throw e)) w)
  = result (getWitnessPath (withWhich E (Return out)) w)
  /\ world (getWitnessPath (withWhich E (Throw e)) w)
     = world (getWitnessPath (withWhich E (Return out)) w)
  /\ calls (getWitnessPath (withWhich E (Throw e)) w)
     = whichCall
       :: CoreDebug (#"Error checking for witness in PATH: " ++ message e)
       :: tl (calls (getWitnessPath (withWhich E (Return out)) w)).
Proof.
  intros Habs.
  assert (Hthrow : getWitnessPath (withWhich E (Throw e)) w
                   = (result (resolveVersion E w), world (resolveVersion E w),
                      [whichCall;
                       CoreDebug (#"Error checking for witness in PATH: "
                                  ++ message e)]
                      ++ calls (resolveVersion E w))).
  { unfold getWitnessPath. run_monad.
    rewrite (probe_error (withWhich E (Throw e)) w e eq_refl).
    rewrite resolve_ignores_which.
    destruct (resolveVersion E w) as [[r w'] t]. reflexivity. }
  assert (Hmiss : getWitnessPath (withWhich E (Return out)) w
                  = (result (resolveVersion E w), world (resolveVersion E w),
                     [whichCall] ++ calls (resolveVersion E w))).
  { unfold getWitnessPath. run_monad.
    rewrite (probe_absent (withWhich E (Return out)) w out eq_refl Habs).
    rewrite resolve_ignores_which.
    destruct (resolveVersion E w) as [[r w'] t]. reflexivity. }
  rewrite Hthrow, Hmiss. repeat split.
Qed.

Lemma X9_probe_error_is_absence_witness :
  result (getWitnessPath
            (withWhich (happyEnv whichMissing [] []) (Throw (Error #"Command failed")))
            emptyWorld)
  = result (getWitnessPath
              (withWhich (happyEnv whichMissing [] [])
                 (Return {| exitCode := 1; stdout := []; stderr := [] |}))
              emptyWorld).
Proof.
  apply (X9_probe_error_is_absence (happyEnv whichMissing [] []) emptyWorld
           (Error #"Command failed") {| exitCode := 1; stdout := []; stderr := [] |}).
  left. discriminate.
Defined.

Lemma download_no_probe (E : Env) (w : World) (version : jsstring) :
  filter isProbe (calls (downloadWitnessVersion E version w)) = [].
Proof.
  unfold downloadWitnessVersion.
  repeat (run_monad; try next_answer); reflexivity.
Qed.

Lemma latest_no_probe (E : Env) (w : World) :
  filter isProbe (calls (getLatestVersion E w)) = [].
Proof.
  destruct (latest_total E w) as (v & ev & -> & [[m ->] | [m ->]]); reflexivity.
Qed.

Lemma resolve_no_probe (E : Env) (w : World) :
  filter isProbe (calls (resolveVersion E w)) = [].
Proof.
  destruct (latest_total E w) as (latest & ev & Hl & Hev).
  assert (Hsel : filter isProbe (selectionCalls E latest [Fetch latestReleaseUrl; ev])
                 = []).
  { unfold selectionCalls.
    destruct (JS.truthy (core_getInput E #"witness_version"));
      destruct Hev as [[m ->] | [m ->]]; reflexivity. }
  destruct (tc_find E #"witness" (versionToUse E latest)) as [[|c t]|e] eqn:Hc.
  - rewrite (resolve_missing E w latest _ Hl Hc). unfold calls at 1. cbn [snd].
    rewrite filter_app, Hsel. cbn [filter isProbe app]. apply download_no_probe.
  - assert (Hne : c :: t <> []) by discriminate.
    rewrite (resolve_cached E w latest _ (c :: t) Hl Hc Hne). unfold calls. cbn [snd].
    now rewrite filter_app, Hsel.
  - rewrite (resolve_lookup_throws E w latest _ e Hl Hc). exact Hsel.
Qed.

(** X10: every invocation of [getWitnessPath] starts with the probe
    [which witness] and runs it exactly once: nothing is looked up,
    fetched or downloaded before the system PATH has been asked. *)
Theorem X10_probe_first_and_once (E : Env) (w : World) :
  hd_error (calls (getWitnessPath E w)) = Some whichCall
  /\ filter isProbe (calls (getWitnessPath E w)) = [whichCall].
Proof.
  assert (Hrest : forall evs,
             getWitnessPath E w
             = (result (resolveVersion E w), world (resolveVersion E w),
                evs ++ calls (resolveVersion E w)) ->
             filter isProbe evs = [whichCall] -> hd_error evs = Some whichCall ->
             hd_error (calls (getWitnessPath E w)) = Some whichCall
             /\ filter isProbe (calls (getWitnessPath E w)) = [whichCall]).
  { intros evs -> Hf Hh. unfold calls at 1 3. cbn [snd].
    rewrite filter_app, Hf, resolve_no_probe. split; [|reflexivity].
    destruct evs; [discriminate | exact Hh]. }
  assert (Hstep : forall evs,
             checkWitnessInPath E w = (Return None, w, evs) ->
             getWitnessPath E w
             = (result (resolveVersion E w), world (resolveVersion E w),
                evs ++ calls (resolveVersion E w))).
  { intros evs Hrun. unfold getWitnessPath. run_monad. rewrite Hrun.
    destruct (resolveVersion E w) as [[r w'] t]. reflexivity. }
  destruct (exec_getExecOutput E #"which" [#"witness"]) as [out|e] eqn:Hx.
  - destruct (Z.eq_dec (exitCode out) 0) as [Hc|Hc].
    + destruct (JS.trim (stdout out)) as [|c t] eqn:Ht.
      * apply (Hrest [whichCall]); try reflexivity.
        apply Hstep, (probe_absent E w out Hx). now right.
      * assert (Hne : JS.trim (stdout out) <> []) by (rewrite Ht; discriminate).
        rewrite (path_present E w _ _ (probe_found E w out Hx Hc Hne) Hne).
        split; reflexivity.
    + apply (Hrest [whichCall]); try reflexivity.
      apply Hstep, (probe_absent E w out Hx). now left.
  - apply (Hrest [whichCall;
                  CoreDebug (#"Error checking for witness in PATH: " ++ message e)]);
      try reflexivity.
    apply Hstep, (probe_error E w e Hx).
Qed.

Lemma download_search_path (E : Env) (w : World) (version : jsstring) :
  (forall err, result (downloadWitnessVersion E version w) = Throw err ->
     searchPath (world (downloadWitnessVersion E version w)) = searchPath w)
  /\ exists added : list jsstring,
       searchPath (world (downloadWitnessVersion E version w))
       = added ++ searchPath w
       /\ length added <= 1.
Proof.
  unfold downloadWitnessVersion.
  repeat (run_monad; try next_answer);
    (split; [intros err H; first [discriminate H | reflexivity]|]);
    first [ exists []; split; [reflexivity | simpl; lia]
          | eexists [_]; split; [reflexivity | simpl; lia] ].
Qed.

(** X11: [getWitnessPath] changes the job's PATH only by putting one
    directory at most in front of it; when it throws, PATH is as it
    was. *)
Theorem X11_search_path_gains_one_in_front (E : Env) (w : World) :
  (forall err, result (getWitnessPath E w) = Throw err ->
     searchPath (world (getWitnessPath E w)) = searchPath w)
  /\ exists added : list jsstring,
       searchPath (world (getWitnessPath E w)) = added ++ searchPath w
       /\ length added <= 1.
Proof.
  destruct (probe_total E w) as ([s|] & evs & Hrun & Hs & _).
  - rewrite (path_present E w s evs Hrun (Hs s eq_refl)).
    split; [discriminate|]. exists []. split; [reflexivity | simpl; lia].
  - assert (Hnone : result (checkWitnessInPath E w) = Return None)
      by now rewrite Hrun.
    destruct (latest_total E w) as (latest & ev & Hl & _).
    assert (Hlatest : result (getLatestVersion E w) = Return latest)
      by now rewrite Hl.
    destruct (tc_find E #"witness" (versionToUse E latest)) as [[|c t]|e] eqn:Hc.
    + destruct (resolution_missing E w latest Hnone Hlatest Hc)
        as (pevs & ev' & _ & _ & _ & Hget).
      rewrite Hget. apply download_search_path.
    + assert (Hne : c :: t <> []) by discriminate.
      destruct (resolution_cached E w latest Hnone Hlatest (c :: t) Hc Hne)
        as (pevs & ev' & _ & _ & _ & Hget).
      rewrite Hget. split; [discriminate|].
      eexists [_]. split; [reflexivity | simpl; lia].
    + destruct (resolution_lookup_throws E w latest Hnone Hlatest e Hc)
        as (pevs & ev' & _ & _ & _ & Hget).
      rewrite Hget. split; [reflexivity|].
      exists []. split; [reflexivity | simpl; lia].
Qed.

Lemma X11_search_path_gains_one_in_front_witness :
  searchPath (world (getWitnessPath extractFailsEnv emptyWorld)) = [].
Proof.
  destruct (X11_search_path_gains_one_in_front extractFailsEnv emptyWorld)
    as (Hthrow & _).
  exact (Hthrow _ eq_refl).
Defined.

(** X12: the only directory [downloadWitnessVersion] creates, extracts
    into or removes is its temporary directory, and it creates and removes
    it once at most. *)
Theorem X12_only_the_temp_dir (E : Env) (w : World) (version : jsstring) :
  Forall (inTempDir E) (calls (downloadWitnessVersion E version w))
  /\ length (filter isMkdir (calls (downloadWitnessVersion E version w))) <= 1
  /\ length (filter isRemoval (calls (downloadWitnessVersion E version w))) <= 1.
Proof.
  unfold downloadWitnessVersion.
  repeat (run_monad; try next_answer);
    (split; [cbn [app]; repeat constructor | split; simpl; lia]).
Qed.

(** ** The download URL *)

Lemma app_same_length (a b x y : jsstring) :
  length a = length b -> a ++ x = b ++ y -> a = b.
Proof.
  revert b. induction a as [|c a IH]; intros [|d b] Hlen H; try discriminate.
  - reflexivity.
  - simpl in *. injection H as -> H. f_equal. apply (IH b); [lia | exact H].
Qed.

(** X13: distinct versions are downloaded from distinct URLs. *)
Theorem X13_url_determines_version (E : Env) (v1 v2 : jsstring) :
  v1 <> v2 -> downloadUrl E v1 <> downloadUrl E v2.
Proof.
  intros Hne H. apply Hne. unfold downloadUrl, archiveFile in H.
  apply app_inv_head in H.
  assert (Hlen : length v1 = length v2).
  { apply (f_equal (@length N)) in H.
    destruct (JS.eqb (process_platform E) #"win32");
      [|destruct (JS.eqb (process_platform E) #"darwin")];
      rewrite !length_app in H; simpl in H; lia. }
  exact (app_same_length v1 v2 _ _ Hlen H).
Qed.

Lemma X13_url_determines_version_witness :
  downloadUrl (happyEnv whichMissing [] []) #"0.9.0"
  <> downloadUrl (happyEnv whichMissing [] []) #"0.10.1".
Proof.
  apply (X13_url_determines_version (happyEnv whichMissing [] []) #"0.9.0" #"0.10.1").
  discriminate.
Defined.

(** ** The shell invocation *)

(** X14: a command wrapped by [parseCommandForShell] reaches the
    assembled vector as one argument: after the separator come [/bin/sh],
    [-c] and the command string itself, unchanged and last, whatever it
    contains (blanks, pipes, newlines) and whatever the options are. *)
Theorem X14_shell_command_is_one_argument (o : WitnessOptions) (command : jsstring) :
  exists i : nat,
    indexOf (assembleWitnessArgs o (map Str (parseCommandForShell command))) separator
    = Some i
    /\ skipn (S i) (assembleWitnessArgs o (map Str (parseCommandForShell command)))
       = [#"/bin/sh"; #"-c"; command]
    /\ nth_error (assembleWitnessArgs o (map Str (parseCommandForShell command)))
         (i + 3) = Some command
    /\ length (assembleWitnessArgs o (map Str (parseCommandForShell command)))
       = i + 4.
Proof.
  exists (length (head o)). split; [apply separator_index|].
  rewrite assemble_shape. split; [apply skipn_after|]. split.
  - rewrite nth_error_app2 by lia.
    replace (length (head o) + 3 - length (head o)) with 3 by lia. reflexivity.
  - rewrite length_app. simpl. lia.
Qed.

(** ** The order of the installation steps *)

(** X15: the steps of [downloadWitnessVersion] run in one fixed order and
    each at most once: download, creation of the temporary directory,
    extraction into it, chmod 755 of the extracted binary, installation of
    that binary into the cache under the requested version, PATH update,
    removal of the temporary directory.  A run performs an initial segment
    of that sequence. *)
Theorem X15_install_steps_in_order (E : Env) (w : World) (version : jsstring) :
  exists p d c : jsstring,
    initialSegment
      (filter isStage (calls (downloadWitnessVersion E version w)))
      [TcDownloadTool (downloadUrl E version);
       FsMkdirSync (tempDir E);
       TcExtractTar p (tempDir E);
       FsChmodSync (path_join E d #"witness") #"755";
       TcCacheFile (path_join E d #"witness") #"witness" #"witness" version;
       CoreAddPath (path_dirname E c);
       FsRm (tempDir E)].
Proof.
  unfold downloadWitnessVersion, initialSegment.
  repeat (run_monad; try next_answer);
    cbn [app filter isStage isDownload isInstallStep orb];
    do 3 eexists; eexists; reflexivity.
  Unshelve. all: exact [].
Qed.
